(** * resources.models and resources.admin: the restaurant ordering data model

    A shallow embedding of [API/resources/models.py] and
    [API/resources/admin.py].  Model instances are records, database tables
    are finite maps from primary keys to rows, methods are computations in a
    state-and-exception monad over the database and the log sink.

    Decimal columns ([DecimalField(max_digits=6, decimal_places=2)]) are
    integers counting hundredths; foreign keys hold the primary key of the
    row they point to. *)

From stdpp Require Import gmap strings list fin_maps pretty.
From Stdlib Require Import ZArith.

Local Open Scope Z_scope.
Local Open Scope string_scope.

(** ** Python exceptions *)

(** The exception classes that the methods of this module can meet.  The
    first three derive from [BaseException] only; all others derive from
    [Exception]. *)
Inductive PyException : Type :=
| KeyboardInterrupt
| SystemExit
| GeneratorExit
| NotImplementedError
| AttributeError (cls attr : string)
| ObjectDoesNotExist (model : string)
| IntegrityError (constraint : string)
| ProtectedError (model : string) (protected : list (string * Z))
| OperationalError (msg : string).

(** [isinstance(e, Exception)]. *)
Definition isinstance_Exception (e : PyException) : bool :=
  match e with
  | KeyboardInterrupt | SystemExit | GeneratorExit => false
  | _ => true
  end.

(** [type(e).__name__]. *)
Definition class_name (e : PyException) : string :=
  match e with
  | KeyboardInterrupt => "KeyboardInterrupt"
  | SystemExit => "SystemExit"
  | GeneratorExit => "GeneratorExit"
  | NotImplementedError => "NotImplementedError"
  | AttributeError _ _ => "AttributeError"
  | ObjectDoesNotExist _ => "ObjectDoesNotExist"
  | IntegrityError _ => "IntegrityError"
  | ProtectedError _ _ => "ProtectedError"
  | OperationalError _ => "OperationalError"
  end.

(** The error taxonomy of the design document, and the exception classes
    that realise it.  A blocked delete ([ProtectedError]) is the
    referential-integrity error; constraint and storage failures are
    persistence errors; nothing in the code realises the two checkout
    errors. *)
Inductive DesignError : Type :=
| ValidationError
| ReferentialIntegrityError
| EmptyCartError
| StaleCartItemError
| PersistenceError.

Definition taxonomy (e : PyException) : option DesignError :=
  match e with
  | ProtectedError _ _ => Some ReferentialIntegrityError
  | IntegrityError _ | OperationalError _ => Some PersistenceError
  | _ => None
  end.

(** ** Model classes and their declarations *)

Inductive ModelClass : Type :=
| CategoryModel | MenuItemModel | OrderModel | OrderItemModel | CartModel
| UserModel.

Global Instance ModelClass_eq_dec : EqDecision ModelClass.
Proof. solve_decision. Defined.

(** The five entities that [models.py] defines. *)
Definition entities : list ModelClass :=
  [CategoryModel; MenuItemModel; OrderModel; OrderItemModel; CartModel].

Inductive BaseClass : Type := SoftDeleteObject | models_Model.

Global Instance BaseClass_eq_dec : EqDecision BaseClass.
Proof. solve_decision. Defined.

(** The base classes in each [class] statement. *)
Definition bases (m : ModelClass) : list BaseClass :=
  match m with
  | CategoryModel => [models_Model]
  | MenuItemModel => [SoftDeleteObject; models_Model]
  | OrderModel => [SoftDeleteObject; models_Model]
  | OrderItemModel => [SoftDeleteObject; models_Model]
  | CartModel => [SoftDeleteObject; models_Model]
  | UserModel => [models_Model]
  end.

Definition soft_deletable (m : ModelClass) : bool :=
  bool_decide (SoftDeleteObject ∈ bases m).

(** [Meta.db_table]. *)
Definition db_table (m : ModelClass) : string :=
  match m with
  | CategoryModel => "category"
  | MenuItemModel => "menu_items"
  | OrderModel => "orders"
  | OrderItemModel => "order_items"
  | CartModel => "user_carts"
  | UserModel => "auth_user"
  end.

Inductive on_delete : Type := CASCADE | PROTECT | SET_NULL.

(** One [models.ForeignKey] declaration: the declaring model, the field
    name, the model pointed to and the [on_delete] policy. *)
Record ForeignKey : Type := {
  fk_model : ModelClass;
  fk_name : string;
  fk_to : ModelClass;
  fk_on_delete : on_delete;
}.

(** ** Rows *)

Module User.
Record t : Type := {
  id : Z;
  username : string;
  first_name : string;
  last_name : string;
}.
End User.

Module Category.
Record t : Type := {
  id : Z;
  slug : string;
  title : string;
}.
End Category.

Module MenuItem.
Record t : Type := {
  id : Z;
  deleted_at : option Z;
  title : string;
  price : Z;
  featured : bool;
  category : Z;
}.
End MenuItem.

Module Order.
Record t : Type := {
  id : Z;
  deleted_at : option Z;
  user : Z;
  delivery_crew : option Z;
  status : bool;
  total : Z;
  date : Z;
}.
End Order.

Module OrderItem.
Record t : Type := {
  id : Z;
  deleted_at : option Z;
  order : Z;
  menuitem : Z;
  quantity : Z;
  category : Z;
  unit_price : Z;
  price : Z;
}.
End OrderItem.

Module Cart.
Record t : Type := {
  id : Z;
  deleted_at : option Z;
  user : Z;
  menuitem : Z;
  quantity : Z;
  unit_price : Z;
  price : Z;
}.
End Cart.

(** Rows are compared column by column. *)
Global Instance MenuItem_eq_dec : EqDecision MenuItem.t.
Proof. solve_decision. Defined.

Global Instance Order_eq_dec : EqDecision Order.t.
Proof. solve_decision. Defined.

Global Instance OrderItem_eq_dec : EqDecision OrderItem.t.
Proof. solve_decision. Defined.

Global Instance Cart_eq_dec : EqDecision Cart.t.
Proof. solve_decision. Defined.

(** ** The database, the log sink and the monad of methods *)

Record DB : Type := {
  auth_user : gmap Z User.t;
  category : gmap Z Category.t;
  menu_items : gmap Z MenuItem.t;
  orders : gmap Z Order.t;
  order_items : gmap Z OrderItem.t;
  user_carts : gmap Z Cart.t;
}.

Definition empty_db : DB :=
  {| auth_user := ∅; category := ∅; menu_items := ∅; orders := ∅;
     order_items := ∅; user_carts := ∅ |}.

Inductive Level : Type := WARNING | ERROR.

(** A record handed to the [loguru] sink: level, message and the
    [exc_info] keyword argument when one is passed. *)
Record LogRecord : Type := {
  level : Level;
  message : string;
  exc_info : option PyException;
}.

Record World : Type := {
  db : DB;
  log : list LogRecord;
  clock : Z;
}.

Definition empty_world : World := {| db := empty_db; log := []; clock := 0 |}.

Inductive Outcome (A : Type) : Type :=
| Return (a : A)
| Raise (e : PyException).
Arguments Return {A} a.
Arguments Raise {A} e.

Definition M (A : Type) : Type := World → Outcome A * World.

Definition ret {A} (a : A) : M A := λ w, (Return a, w).
Definition raise {A} (e : PyException) : M A := λ w, (Raise e, w).
Definition bind {A B} (m : M A) (k : A → M B) : M B :=
  λ w, match m w with
       | (Return a, w') => k a w'
       | (Raise e, w') => (Raise e, w')
       end.

Notation "x ←' m ;; k" := (bind m (λ x, k))
  (at level 100, m at next level, right associativity).
Notation "m ;;' k" := (bind m (λ _, k))
  (at level 100, right associativity).

(** [try: body  except Exception as e: handler(e)].  Exceptions that are
    not instances of [Exception] pass through. *)
Definition try_except_Exception {A} (body : M A) (handler : PyException → M A)
  : M A :=
  λ w, match body w with
       | (Return a, w') => (Return a, w')
       | (Raise e, w') =>
           if isinstance_Exception e then handler e w' else (Raise e, w')
       end.

Definition get_db : M DB := λ w, (Return (db w), w).
Definition put_db (d : DB) : M unit :=
  λ w, (Return tt, {| db := d; log := log w; clock := clock w |}).
Definition timezone_now : M Z := λ w, (Return (clock w), w).

Definition emit (r : LogRecord) : M unit :=
  λ w, (Return tt, {| db := db w; log := log w ++ [r]; clock := clock w |}).

(** [logger.warning(msg)] and [logger.error(msg, exc_info=e)]. *)
Definition logger_warning (msg : string) : M unit :=
  emit {| level := WARNING; message := msg; exc_info := None |}.
Definition logger_error (msg : string) (e : PyException) : M unit :=
  emit {| level := ERROR; message := msg; exc_info := Some e |}.

(** ** [models.Model]: tables, primary keys and [save] *)

(** What [django.db.models.Model] gives every model class: its table, its
    primary key and the constraints the database checks on a write
    (foreign keys, [unique_together]).  [constraints d self] is the name of
    a constraint that writing [self] would violate, if any. *)
Class Model (A : Type) : Type := {
  model_class : ModelClass;
  pk : A → Z;
  table : DB → gmap Z A;
  set_table : gmap Z A → DB → DB;
  constraints : DB → A → option string;
}.

(** [self.save()]: insert or update the row with this primary key. *)
Definition save {A} `{Model A} (self : A) : M unit :=
  d ←' get_db ;;
  match constraints d self with
  | Some c => raise (IntegrityError c)
  | None => put_db (set_table (<[pk self := self]> (table d)) d)
  end.

(** No other row carries the same values in the [unique_together] fields. *)
Definition unique_together_ok {A K} `{EqDecision K}
    (id_of : A → Z) (key : A → K) (self : A) (tbl : gmap Z A) : bool :=
  bool_decide (map_Forall (λ k r, k = id_of self ∨ key r ≠ key self) tbl).

Definition exists_in {A} (k : Z) (tbl : gmap Z A) : bool :=
  bool_decide (is_Some (tbl !! k)).

Global Instance User_Model : Model User.t := {|
  model_class := UserModel;
  pk := User.id;
  table := auth_user;
  set_table t d :=
    {| auth_user := t; category := category d; menu_items := menu_items d;
       orders := orders d; order_items := order_items d;
       user_carts := user_carts d |};
  constraints d self := None;
|}.

Global Instance Category_Model : Model Category.t := {|
  model_class := CategoryModel;
  pk := Category.id;
  table := category;
  set_table t d :=
    {| auth_user := auth_user d; category := t; menu_items := menu_items d;
       orders := orders d; order_items := order_items d;
       user_carts := user_carts d |};
  constraints d self := None;
|}.

Global Instance MenuItem_Model : Model MenuItem.t := {|
  model_class := MenuItemModel;
  pk := MenuItem.id;
  table := menu_items;
  set_table t d :=
    {| auth_user := auth_user d; category := category d; menu_items := t;
       orders := orders d; order_items := order_items d;
       user_carts := user_carts d |};
  constraints d self :=
    if negb (exists_in (MenuItem.category self) (category d))
    then Some "menu_items.category_id"
    else None;
|}.

Global Instance Order_Model : Model Order.t := {|
  model_class := OrderModel;
  pk := Order.id;
  table := orders;
  set_table t d :=
    {| auth_user := auth_user d; category := category d;
       menu_items := menu_items d; orders := t;
       order_items := order_items d; user_carts := user_carts d |};
  constraints d self :=
    if negb (exists_in (Order.user self) (auth_user d))
    then Some "orders.user_id"
    else match Order.delivery_crew self with
         | Some c =>
             if negb (exists_in c (auth_user d))
             then Some "orders.delivery_crew_id" else None
         | None => None
         end;
|}.

Global Instance OrderItem_Model : Model OrderItem.t := {|
  model_class := OrderItemModel;
  pk := OrderItem.id;
  table := order_items;
  set_table t d :=
    {| auth_user := auth_user d; category := category d;
       menu_items := menu_items d; orders := orders d;
       order_items := t; user_carts := user_carts d |};
  constraints d self :=
    if negb (exists_in (OrderItem.order self) (orders d))
    then Some "order_items.order_id"
    else if negb (exists_in (OrderItem.menuitem self) (menu_items d))
    then Some "order_items.menuitem_id"
    else if negb (exists_in (OrderItem.category self) (category d))
    then Some "order_items.category_id"
    else if negb (unique_together_ok OrderItem.id
                    (λ r, (OrderItem.menuitem r, OrderItem.order r))
                    self (order_items d))
    then Some "order_items.unique_together(menuitem, order)"
    else None;
|}.

Global Instance Cart_Model : Model Cart.t := {|
  model_class := CartModel;
  pk := Cart.id;
  table := user_carts;
  set_table t d :=
    {| auth_user := auth_user d; category := category d;
       menu_items := menu_items d; orders := orders d;
       order_items := order_items d; user_carts := t |};
  constraints d self :=
    if negb (exists_in (Cart.user self) (auth_user d))
    then Some "user_carts.user_id"
    else if negb (exists_in (Cart.menuitem self) (menu_items d))
    then Some "user_carts.menuitem_id"
    else if negb (unique_together_ok Cart.id
                    (λ r, (Cart.menuitem r, Cart.user r))
                    self (user_carts d))
    then Some "user_carts.unique_together(menuitem, user)"
    else None;
|}.

(** ** [SoftDeleteObject]: the soft-delete mixin *)

(** The models that list [SoftDeleteObject] among their bases carry its
    [deleted_at] column. *)
Class SoftDelete (A : Type) `{Model A} : Type := {
  get_deleted_at : A → option Z;
  set_deleted_at : option Z → A → A;
}.

Global Instance MenuItem_SoftDelete : SoftDelete MenuItem.t := {|
  get_deleted_at := MenuItem.deleted_at;
  set_deleted_at v r :=
    {| MenuItem.id := MenuItem.id r; MenuItem.deleted_at := v;
       MenuItem.title := MenuItem.title r; MenuItem.price := MenuItem.price r;
       MenuItem.featured := MenuItem.featured r;
       MenuItem.category := MenuItem.category r |};
|}.

Global Instance Order_SoftDelete : SoftDelete Order.t := {|
  get_deleted_at := Order.deleted_at;
  set_deleted_at v r :=
    {| Order.id := Order.id r; Order.deleted_at := v;
       Order.user := Order.user r;
       Order.delivery_crew := Order.delivery_crew r;
       Order.status := Order.status r; Order.total := Order.total r;
       Order.date := Order.date r |};
|}.

Global Instance OrderItem_SoftDelete : SoftDelete OrderItem.t := {|
  get_deleted_at := OrderItem.deleted_at;
  set_deleted_at v r :=
    {| OrderItem.id := OrderItem.id r; OrderItem.deleted_at := v;
       OrderItem.order := OrderItem.order r;
       OrderItem.menuitem := OrderItem.menuitem r;
       OrderItem.quantity := OrderItem.quantity r;
       OrderItem.category := OrderItem.category r;
       OrderItem.unit_price := OrderItem.unit_price r;
       OrderItem.price := OrderItem.price r |};
|}.

Global Instance Cart_SoftDelete : SoftDelete Cart.t := {|
  get_deleted_at := Cart.deleted_at;
  set_deleted_at v r :=
    {| Cart.id := Cart.id r; Cart.deleted_at := v;
       Cart.user := Cart.user r; Cart.menuitem := Cart.menuitem r;
       Cart.quantity := Cart.quantity r;
       Cart.unit_price := Cart.unit_price r; Cart.price := Cart.price r |};
|}.

(** [self.deleted]: the record is flagged as deleted. *)
Definition deleted {A} `{SoftDelete A} (self : A) : bool :=
  bool_decide (is_Some (get_deleted_at self)).

(** The record that a soft delete logs when its write fails: the table and
    the primary key of the record, with the exception attached. *)
Definition delete_error {A} `{Model A} (self : A) (e : PyException)
  : LogRecord :=
  {| level := ERROR;
     message := "Error deleting " +:+ db_table model_class +:+ "("
                +:+ pretty (pk self) +:+ ")";
     exc_info := Some e |}.

(** Modelled from the spec: the failure half of [SoftDeleteObject.delete]
    (the [softdelete] package is not part of the source).  Section 4.1: if
    the underlying persistence write fails, the error is logged with the
    record's identifying context and surfaced to the caller.  The write is
    [self.save()] with its constraint checks. *)
Definition save_or_log {A} `{Model A} (self : A) : M A :=
  try_except_Exception (save self)
    (λ e, emit (delete_error self e) ;;' raise e) ;;'
  ret self.

(** Modelled from the spec: the body of [SoftDeleteObject.delete], which
    lives in the [softdelete] package and is only imported by [models.py].
    Section 4.1: delete does not remove the underlying record; it flags the
    record as deleted and persists that flag; it never raises for a record
    that is already deleted; a failing write is logged and raised.

    The record is the stored row.  When the stored row is already flagged
    there is nothing to persist and the call returns.  Otherwise the
    instance is flagged and written whole, under its primary key.  An
    instance that holds the stored columns changes [deleted_at] alone,
    which no constraint mentions, so that write cannot be refused; an
    instance with unsaved changes, or one without a stored row, goes
    through the checks of [save].  The call returns the instance as the
    method leaves it. *)
Definition SoftDeleteObject_delete {A} `{SoftDelete A} `{EqDecision A}
    (self : A) : M A :=
  d ←' get_db ;;
  now ←' timezone_now ;;
  let flagged := set_deleted_at (Some now) self in
  match table d !! pk self with
  | Some row =>
      match get_deleted_at row with
      | Some t => ret (set_deleted_at (Some t) self)
      | None =>
          if decide (row = set_deleted_at None self)
          then put_db (set_table (<[pk flagged := flagged]> (table d)) d) ;;'
               ret flagged
          else save_or_log flagged
      end
  | None => save_or_log flagged
  end.

(** Modelled from the spec: the default manager of a soft-deletable model
    ([Model.objects.all()]), also from the [softdelete] package.  Section
    4.1: default retrieval filters out deleted records. *)
Definition objects_all {A} `{SoftDelete A} (d : DB) : gmap Z A :=
  filter (λ kr, get_deleted_at kr.2 = None) (table d).

(** Modelled from the spec: the retrieval that the caller explicitly asks
    to include deleted records (sections 4.1 and 6); the [softdelete]
    package is not part of the source. *)
Definition all_with_deleted {A} `{SoftDelete A} (d : DB) : gmap Z A :=
  table d.

(** ** [Model.delete]: hard deletion and the [on_delete] policies *)

(** A foreign-key column of the rows [A]: its declaration, how to read it
    and how to null it.  Only [Order.delivery_crew] is declared [null=True];
    the other columns are never nulled and their [rel_clear] is unused. *)
Record Relation (A : Type) : Type := {
  rel_fk : ForeignKey;
  rel_get : A → option Z;
  rel_clear : A → A;
}.
Arguments rel_fk {A} _.
Arguments rel_get {A} _ _.
Arguments rel_clear {A} _ _.

Definition MenuItem_category : Relation MenuItem.t := {|
  rel_fk := {| fk_model := MenuItemModel; fk_name := "category";
               fk_to := CategoryModel; fk_on_delete := PROTECT |};
  rel_get r := Some (MenuItem.category r);
  rel_clear r := r;
|}.

Definition OrderItem_category : Relation OrderItem.t := {|
  rel_fk := {| fk_model := OrderItemModel; fk_name := "category";
               fk_to := CategoryModel; fk_on_delete := PROTECT |};
  rel_get r := Some (OrderItem.category r);
  rel_clear r := r;
|}.

Definition Order_user : Relation Order.t := {|
  rel_fk := {| fk_model := OrderModel; fk_name := "user";
               fk_to := UserModel; fk_on_delete := CASCADE |};
  rel_get r := Some (Order.user r);
  rel_clear r := r;
|}.

Definition Order_delivery_crew : Relation Order.t := {|
  rel_fk := {| fk_model := OrderModel; fk_name := "delivery_crew";
               fk_to := UserModel; fk_on_delete := SET_NULL |};
  rel_get r := Order.delivery_crew r;
  rel_clear r :=
    {| Order.id := Order.id r; Order.deleted_at := Order.deleted_at r;
       Order.user := Order.user r; Order.delivery_crew := None;
       Order.status := Order.status r; Order.total := Order.total r;
       Order.date := Order.date r |};
|}.

Definition OrderItem_order : Relation OrderItem.t := {|
  rel_fk := {| fk_model := OrderItemModel; fk_name := "order";
               fk_to := OrderModel; fk_on_delete := CASCADE |};
  rel_get r := Some (OrderItem.order r);
  rel_clear r := r;
|}.

Definition Cart_user : Relation Cart.t := {|
  rel_fk := {| fk_model := CartModel; fk_name := "user";
               fk_to := UserModel; fk_on_delete := CASCADE |};
  rel_get r := Some (Cart.user r);
  rel_clear r := r;
|}.

(** The row points, through this column, at one of the rows being deleted. *)
Definition refers {A} (rel : Relation A) (targets : gset Z) (r : A) : bool :=
  match rel_get rel r with
  | Some k => bool_decide (k ∈ targets)
  | None => false
  end.

(** What deleting [targets] does to a table that references them: the
    delete is blocked by the rows found ([PROTECT]), or the table is kept
    with the referring rows removed ([CASCADE], their keys being deleted in
    turn) or with their column nulled ([SET_NULL]).  The deletion collector
    looks through the base manager, so rows flagged as deleted count. *)
Inductive Collected (A : Type) : Type :=
| Blocked (rows : gmap Z A)
| Kept (tbl : gmap Z A) (gone : gset Z).
Arguments Blocked {A} rows.
Arguments Kept {A} tbl gone.

Definition collect {A} (rel : Relation A) (targets : gset Z) (tbl : gmap Z A)
  : Collected A :=
  let hit := filter (λ kr, refers rel targets kr.2 = true) tbl in
  match fk_on_delete (rel_fk rel) with
  | PROTECT => if decide (hit = ∅) then Kept tbl ∅ else Blocked hit
  | CASCADE =>
      Kept (filter (λ kr, refers rel targets kr.2 = false) tbl) (dom hit)
  | SET_NULL =>
      Kept ((λ r, if refers rel targets r then rel_clear rel r else r)
              <$> tbl) ∅
  end.

Definition protected_objects {A} (m : ModelClass) (rows : gmap Z A)
  : list (string * Z) :=
  (λ kr, (db_table m, kr.1)) <$> map_to_list rows.

Definition OrderItem_menuitem : Relation OrderItem.t := {|
  rel_fk := {| fk_model := OrderItemModel; fk_name := "menuitem";
               fk_to := MenuItemModel; fk_on_delete := CASCADE |};
  rel_get r := Some (OrderItem.menuitem r);
  rel_clear r := r;
|}.

Definition Cart_menuitem : Relation Cart.t := {|
  rel_fk := {| fk_model := CartModel; fk_name := "menuitem";
               fk_to := MenuItemModel; fk_on_delete := CASCADE |};
  rel_get r := Some (Cart.menuitem r);
  rel_clear r := r;
|}.

(** Every [models.ForeignKey] of [models.py]. *)
Definition foreign_keys : list ForeignKey :=
  [ rel_fk MenuItem_category;
    rel_fk Order_user; rel_fk Order_delivery_crew;
    rel_fk OrderItem_order; rel_fk OrderItem_menuitem;
    rel_fk OrderItem_category;
    rel_fk Cart_user; rel_fk Cart_menuitem ].

Definition blocking {A} (m : ModelClass) (c : Collected A)
  : list (string * Z) :=
  match c with
  | Blocked rows => protected_objects m rows
  | Kept _ _ => []
  end.

(** [Category.delete()].  [Category] has no [SoftDeleteObject] base, so
    this is [Model.delete]: the two foreign keys that point at [Category]
    are collected, and the row is removed when neither blocks. *)
Definition Category_delete (self : Category.t) : M unit :=
  d ←' get_db ;;
  let targets : gset Z := {[ Category.id self ]} in
  let c1 := collect MenuItem_category targets (menu_items d) in
  let c2 := collect OrderItem_category targets (order_items d) in
  match c1, c2 with
  | Kept mi _, Kept oi _ =>
      put_db {| auth_user := auth_user d;
                category := delete (Category.id self) (category d);
                menu_items := mi; orders := orders d;
                order_items := oi; user_carts := user_carts d |}
  | _, _ =>
      raise (ProtectedError "Category"
               (blocking MenuItemModel c1 ++ blocking OrderItemModel c2))
  end.

(** [user.delete()] on the user model: [Model.delete] again.  The orders
    and cart rows of the user are collected through their [user] column,
    the order items through the orders that go, the remaining orders
    through [delivery_crew]. *)
Definition User_delete (self : User.t) : M unit :=
  d ←' get_db ;;
  let targets : gset Z := {[ User.id self ]} in
  match collect Order_user targets (orders d) with
  | Blocked rows =>
      raise (ProtectedError "User" (protected_objects OrderModel rows))
  | Kept orders1 gone_orders =>
      match collect Order_delivery_crew targets orders1,
            collect OrderItem_order gone_orders (order_items d),
            collect Cart_user targets (user_carts d) with
      | Kept orders2 _, Kept items _, Kept carts _ =>
          put_db {| auth_user := delete (User.id self) (auth_user d);
                    category := category d; menu_items := menu_items d;
                    orders := orders2; order_items := items;
                    user_carts := carts |}
      | c2, c3, c4 =>
          raise (ProtectedError "User"
                   (blocking OrderModel c2 ++ blocking OrderItemModel c3
                    ++ blocking CartModel c4))
      end
  end.

(** ** Attribute access and [__str__] *)

Inductive PyValue : Type :=
| PyNone
| PyBool (b : bool)
| PyInt (z : Z)
| PyDecimal (hundredths : Z)
| PyStr (s : string)
| PyRelated (m : ModelClass) (k : Z).

Definition py_option (f : Z → PyValue) (o : option Z) : PyValue :=
  match o with Some z => f z | None => PyNone end.

(** The data attributes an instance answers to: its columns under their
    attribute names, the [pk] alias, the related-object descriptors of its
    foreign keys and, below [SoftDeleteObject], [deleted_at] and
    [deleted].  The bookkeeping attributes of the framework ([_state], the
    [_order] column behind [order_with_respect_to]) and the methods are
    left out; none of them is read by the code. *)
Class PyObject (A : Type) : Type := {
  type_name : string;
  attributes : A → list (string * PyValue);
}.

(** [self.<name>]. *)
Definition getattr {A} `{PyObject A} (self : A) (name : string) : M PyValue :=
  match (list_to_map (attributes self) : gmap string PyValue) !! name with
  | Some v => ret v
  | None => raise (AttributeError type_name name)
  end.

Global Instance User_PyObject : PyObject User.t := {|
  type_name := "User";
  attributes self :=
    [ ("id", PyInt (User.id self)); ("pk", PyInt (User.id self));
      ("username", PyStr (User.username self));
      ("first_name", PyStr (User.first_name self));
      ("last_name", PyStr (User.last_name self)) ];
|}.

Global Instance Category_PyObject : PyObject Category.t := {|
  type_name := "Category";
  attributes self :=
    [ ("id", PyInt (Category.id self)); ("pk", PyInt (Category.id self));
      ("slug", PyStr (Category.slug self));
      ("title", PyStr (Category.title self)) ];
|}.

Global Instance MenuItem_PyObject : PyObject MenuItem.t := {|
  type_name := "MenuItem";
  attributes self :=
    [ ("id", PyInt (MenuItem.id self)); ("pk", PyInt (MenuItem.id self));
      ("deleted_at", py_option PyInt (MenuItem.deleted_at self));
      ("deleted", PyBool (deleted self));
      ("title", PyStr (MenuItem.title self));
      ("price", PyDecimal (MenuItem.price self));
      ("featured", PyBool (MenuItem.featured self));
      ("category_id", PyInt (MenuItem.category self));
      ("category", PyRelated CategoryModel (MenuItem.category self)) ];
|}.

Global Instance Order_PyObject : PyObject Order.t := {|
  type_name := "Order";
  attributes self :=
    [ ("id", PyInt (Order.id self)); ("pk", PyInt (Order.id self));
      ("deleted_at", py_option PyInt (Order.deleted_at self));
      ("deleted", PyBool (deleted self));
      ("user_id", PyInt (Order.user self));
      ("user", PyRelated UserModel (Order.user self));
      ("delivery_crew_id", py_option PyInt (Order.delivery_crew self));
      ("delivery_crew",
        py_option (PyRelated UserModel) (Order.delivery_crew self));
      ("status", PyBool (Order.status self));
      ("total", PyDecimal (Order.total self));
      ("date", PyInt (Order.date self)) ];
|}.

Global Instance OrderItem_PyObject : PyObject OrderItem.t := {|
  type_name := "OrderItem";
  attributes self :=
    [ ("id", PyInt (OrderItem.id self)); ("pk", PyInt (OrderItem.id self));
      ("deleted_at", py_option PyInt (OrderItem.deleted_at self));
      ("deleted", PyBool (deleted self));
      ("order_id", PyInt (OrderItem.order self));
      ("order", PyRelated OrderModel (OrderItem.order self));
      ("menuitem_id", PyInt (OrderItem.menuitem self));
      ("menuitem", PyRelated MenuItemModel (OrderItem.menuitem self));
      ("quantity", PyInt (OrderItem.quantity self));
      ("category_id", PyInt (OrderItem.category self));
      ("category", PyRelated CategoryModel (OrderItem.category self));
      ("unit_price", PyDecimal (OrderItem.unit_price self));
      ("price", PyDecimal (OrderItem.price self)) ];
|}.

Global Instance Cart_PyObject : PyObject Cart.t := {|
  type_name := "Cart";
  attributes self :=
    [ ("id", PyInt (Cart.id self)); ("pk", PyInt (Cart.id self));
      ("deleted_at", py_option PyInt (Cart.deleted_at self));
      ("deleted", PyBool (deleted self));
      ("user_id", PyInt (Cart.user self));
      ("user", PyRelated UserModel (Cart.user self));
      ("menuitem_id", PyInt (Cart.menuitem self));
      ("menuitem", PyRelated MenuItemModel (Cart.menuitem self));
      ("quantity", PyInt (Cart.quantity self));
      ("unit_price", PyDecimal (Cart.unit_price self));
      ("price", PyDecimal (Cart.price self)) ];
|}.

Definition two_digits (n : Z) : string :=
  if (n <? 10)%Z then "0" +:+ pretty n else pretty n.

(** [str(v)] on the values that columns hold. *)
Definition py_str (v : PyValue) : string :=
  match v with
  | PyNone => "None"
  | PyBool true => "True"
  | PyBool false => "False"
  | PyInt z => pretty z
  | PyDecimal h =>
      (if (h <? 0)%Z then "-" else "")
      +:+ pretty (Z.abs h / 100) +:+ "." +:+ two_digits (Z.abs h mod 100)
  | PyStr s => s
  | PyRelated m k => db_table m +:+ " object (" +:+ pretty k +:+ ")"
  end.

(** The query behind a related-object descriptor. *)
Definition fetch {A} `{Model A} (k : Z) : M A :=
  d ←' get_db ;;
  match table d !! k with
  | Some r => ret r
  | None => raise (ObjectDoesNotExist (db_table model_class))
  end.

(** [v.<name>] for a value read from an instance: a related object is
    fetched and asked; the other values have no such attribute. *)
Definition getattr_of (v : PyValue) (name : string) : M PyValue :=
  match v with
  | PyRelated UserModel k => r ←' fetch (A := User.t) k ;; getattr r name
  | PyRelated CategoryModel k =>
      r ←' fetch (A := Category.t) k ;; getattr r name
  | PyRelated MenuItemModel k =>
      r ←' fetch (A := MenuItem.t) k ;; getattr r name
  | PyRelated OrderModel k => r ←' fetch (A := Order.t) k ;; getattr r name
  | PyRelated OrderItemModel k =>
      r ←' fetch (A := OrderItem.t) k ;; getattr r name
  | PyRelated CartModel k => r ←' fetch (A := Cart.t) k ;; getattr r name
  | PyNone => raise (AttributeError "NoneType" name)
  | PyBool _ => raise (AttributeError "bool" name)
  | PyInt _ => raise (AttributeError "int" name)
  | PyDecimal _ => raise (AttributeError "Decimal" name)
  | PyStr _ => raise (AttributeError "str" name)
  end.

Class Str (A : Type) : Type := __str__ : A → M string.

Global Instance Category_str : Str Category.t := λ self,
  title ←' getattr self "title" ;;
  ret (py_str title).

Global Instance MenuItem_str : Str MenuItem.t := λ self,
  title ←' getattr self "title" ;;
  ret (py_str title).

Global Instance Order_str : Str Order.t := λ self,
  pk ←' getattr self "pk" ;;
  user ←' getattr self "user" ;;
  last_name ←' getattr_of user "last_name" ;;
  ret ("Order Number: " +:+ py_str pk +:+ " - " +:+ py_str last_name
       +:+ ", " +:+ py_str last_name).

Global Instance OrderItem_str : Str OrderItem.t := λ self,
  title ←' getattr self "title" ;;
  ret (py_str title).

Global Instance Cart_str : Str Cart.t := λ self,
  user ←' getattr self "user" ;;
  last_name ←' getattr_of user "last_name" ;;
  ret ("Cart for '" +:+ py_str last_name +:+ ", " +:+ py_str last_name).

(** ** [Cart.reset_cart] and [Cart.checkout] *)

(** [reset_cart], with the [delete] that [self.delete()] resolves to as a
    parameter. *)
Definition reset_cart_with (delete : Cart.t → M Cart.t) (self : Cart.t)
  : M unit :=
  try_except_Exception
    (user ←' getattr self "user" ;;
     last_name ←' getattr_of user "last_name" ;;
     id ←' getattr self "id" ;;
     logger_warning
       ("Soft-Deleteting " +:+ py_str last_name +:+ ", " +:+ py_str last_name
        +:+ "(" +:+ py_str id +:+ ") cart") ;;'
     _ ←' delete self ;;
     ret tt)
    (λ e, logger_error "Error deleting cart" e).

Definition reset_cart (self : Cart.t) : M unit :=
  reset_cart_with SoftDeleteObject_delete self.

Definition checkout (self : Cart.t) : M unit :=
  raise NotImplementedError.

(** Assignments to the columns of a cart row: [self.quantity = q] and
    [self.unit_price = p]. *)
Definition set_quantity (q : Z) (self : Cart.t) : Cart.t :=
  {| Cart.id := Cart.id self; Cart.deleted_at := Cart.deleted_at self;
     Cart.user := Cart.user self; Cart.menuitem := Cart.menuitem self;
     Cart.quantity := q;
     Cart.unit_price := Cart.unit_price self; Cart.price := Cart.price self |}.

Definition set_unit_price (p : Z) (self : Cart.t) : Cart.t :=
  {| Cart.id := Cart.id self; Cart.deleted_at := Cart.deleted_at self;
     Cart.user := Cart.user self; Cart.menuitem := Cart.menuitem self;
     Cart.quantity := Cart.quantity self;
     Cart.unit_price := p; Cart.price := Cart.price self |}.

(** ** [admin.py] *)

(** The list the registration loop runs over. *)
Definition admin_models : list ModelClass :=
  [CartModel; CategoryModel; OrderModel; OrderItemModel; UserModel].

(** [for model in admin_models: admin.register(model)], as the models an
    admin site holds before and after; [admin_register] is what one call
    does to the site. *)
Definition admin_py
    (admin_register : ModelClass → list ModelClass → list ModelClass)
    (site : list ModelClass) : list ModelClass :=
  foldl (λ s model, admin_register model s) site admin_models.

(** The call read as an immediate registration of the model. *)
Definition register_now (model : ModelClass) (site : list ModelClass)
  : list ModelClass := model :: site.

(** The call read as Django defines [admin.register]: it builds a class
    decorator, and the site changes only when that decorator is applied to
    an admin class, which the loop never does. *)
Definition register_decorator_unused (model : ModelClass)
    (site : list ModelClass) : list ModelClass := site.

(** ** Requests *)

(** The operations a caller can run against the data model: [save] and
    [delete] on an instance of each model, the two methods of [Cart], and
    the passing of time. *)
Inductive Request : Type :=
| SaveUser (u : User.t)
| SaveCategory (c : Category.t)
| SaveMenuItem (m : MenuItem.t)
| SaveOrder (o : Order.t)
| SaveOrderItem (i : OrderItem.t)
| SaveCart (c : Cart.t)
| DeleteUser (u : User.t)
| DeleteCategory (c : Category.t)
| DeleteMenuItem (m : MenuItem.t)
| DeleteOrder (o : Order.t)
| DeleteOrderItem (i : OrderItem.t)
| DeleteCart (c : Cart.t)
| ResetCart (c : Cart.t)
| Checkout (c : Cart.t)
| Tick.

(** A call whose result the caller drops. *)
Definition discard {A} (m : M A) : M unit := _ ←' m ;; ret tt.

Definition tick : M unit :=
  λ w, (Return tt, {| db := db w; log := log w; clock := clock w + 1 |}).

(** Each request runs the method that the class of the instance resolves
    it to: [delete] is [SoftDeleteObject.delete] below the mixin and
    [Model.delete] elsewhere. *)
Definition handle (r : Request) : M unit :=
  match r with
  | SaveUser u => save u
  | SaveCategory c => save c
  | SaveMenuItem m => save m
  | SaveOrder o => save o
  | SaveOrderItem i => save i
  | SaveCart c => save c
  | DeleteUser u => User_delete u
  | DeleteCategory c => Category_delete c
  | DeleteMenuItem m => discard (SoftDeleteObject_delete m)
  | DeleteOrder o => discard (SoftDeleteObject_delete o)
  | DeleteOrderItem i => discard (SoftDeleteObject_delete i)
  | DeleteCart c => discard (SoftDeleteObject_delete c)
  | ResetCart c => reset_cart c
  | Checkout c => checkout c
  | Tick => tick
  end.

(** The world after a sequence of requests; a request that raises leaves
    whatever it had written. *)
Definition run (rs : list Request) (w : World) : World :=
  foldl (λ w r, (handle r w).2) w rs.

(** The active rows of a user's cart for one menu item. *)
Definition active_cart_rows (u m : Z) (d : DB) : list (Z * Cart.t) :=
  map_to_list
    (filter (λ kr, Cart.user kr.2 = u ∧ Cart.menuitem kr.2 = m)
       (objects_all (A := Cart.t) d)).

(** The active rows of a user's cart. *)
Definition active_cart (u : Z) (d : DB) : gmap Z Cart.t :=
  filter (λ kr, Cart.user kr.2 = u) (objects_all (A := Cart.t) d).

(** ** The log records of [reset_cart] *)

Definition logged (r : LogRecord) (w : World) : World :=
  {| db := db w; log := log w ++ [r]; clock := clock w |}.

Definition reset_cart_warning (self : Cart.t) (u : User.t) : LogRecord :=
  {| level := WARNING;
     message := "Soft-Deleteting " +:+ User.last_name u +:+ ", "
                +:+ User.last_name u +:+ "(" +:+ pretty (Cart.id self)
                +:+ ") cart";
     exc_info := None |}.

Definition reset_cart_error (e : PyException) : LogRecord :=
  {| level := ERROR; message := "Error deleting cart"; exc_info := Some e |}.

(** ** Sample data *)

Definition alice : User.t :=
  {| User.id := 1; User.username := "alice"; User.first_name := "Alice";
     User.last_name := "Adams" |}.

Definition bob : User.t :=
  {| User.id := 2; User.username := "bob"; User.first_name := "Bob";
     User.last_name := "Brown" |}.

Definition mains : Category.t :=
  {| Category.id := 1; Category.slug := "mains"; Category.title := "Mains" |}.

Definition pasta : MenuItem.t :=
  {| MenuItem.id := 1; MenuItem.deleted_at := None; MenuItem.title := "Pasta";
     MenuItem.price := 500; MenuItem.featured := false;
     MenuItem.category := 1 |}.

Definition alice_pasta : Cart.t :=
  {| Cart.id := 1; Cart.deleted_at := None; Cart.user := 1;
     Cart.menuitem := 1; Cart.quantity := 2; Cart.unit_price := 500;
     Cart.price := 1000 |}.

(** An order that its owner delivers. *)
Definition alice_own_delivery : Order.t :=
  {| Order.id := 1; Order.deleted_at := None; Order.user := 1;
     Order.delivery_crew := Some 1; Order.status := false;
     Order.total := 1000; Order.date := 0 |}.

(** An order of one user that another user delivers. *)
Definition alice_order_bob_delivers : Order.t :=
  {| Order.id := 2; Order.deleted_at := None; Order.user := 1;
     Order.delivery_crew := Some 2; Order.status := false;
     Order.total := 1000; Order.date := 0 |}.

Definition alice_order_pasta : OrderItem.t :=
  {| OrderItem.id := 1; OrderItem.deleted_at := None; OrderItem.order := 2;
     OrderItem.menuitem := 1; OrderItem.quantity := 2;
     OrderItem.category := 1; OrderItem.unit_price := 500;
     OrderItem.price := 1000 |}.

(** Two users, a category and a menu item; nothing in any cart. *)
Definition world_no_cart : World :=
  run [SaveUser alice; SaveUser bob; SaveCategory mains; SaveMenuItem pasta]
    empty_world.

(** The same with two portions of pasta in the first user's cart. *)
Definition world_one_cart : World :=
  run [SaveCart alice_pasta] world_no_cart.

(** The same with two orders of the first user, one with an item. *)
Definition world_orders : World :=
  run [SaveOrder alice_own_delivery; SaveOrder alice_order_bob_delivers;
       SaveOrderItem alice_order_pasta] world_one_cart.

(** ** Statements of the design document, as predicates *)

(** Checking out an empty cart fails with [EmptyCartError] and creates no
    rows. *)
Definition empty_checkout_fails_with_EmptyCartError
    (self : Cart.t) (w : World) : Prop :=
  active_cart (Cart.user self) (db w) = ∅ →
  ∃ e, checkout self w = (Raise e, w) ∧ taxonomy e = Some EmptyCartError.

Definition price_is_product (c : Cart.t) : Prop :=
  Cart.price c = Cart.unit_price c * Cart.quantity c.

(** After a mutation of a cart row (an assignment followed by [save]), the
    stored row has [price = unit_price * quantity]. *)
Definition price_recomputed_after
    (mutate : Cart.t → Cart.t) (self : Cart.t) (w : World) : Prop :=
  ∀ w' row,
    save (mutate self) w = (Return tt, w') →
    user_carts (db w') !! Cart.id self = Some row →
    price_is_product row.

(** Whatever exception the [delete] inside [reset_cart] raises, it is
    caught, logged at error level with the exception attached, and the
    call returns normally. *)
Definition reset_cart_swallows
    (delete : Cart.t → M Cart.t) (self : Cart.t) (w : World) : Prop :=
  ∀ u e w2,
    auth_user (db w) !! Cart.user self = Some u →
    delete self (logged (reset_cart_warning self u) w) = (Raise e, w2) →
    reset_cart_with delete self w
    = (Return tt, logged (reset_cart_error e) w2).

(** The order row after the user [u] is deleted. *)
Definition order_after_user_delete (u : User.t) (o : Order.t) (w : World)
  : option Order.t :=
  orders (db (User_delete u w).2) !! Order.id o.

(** Deleting the owner deletes the order; deleting the user referenced as
    [delivery_crew] nulls that reference and the order survives with its
    other fields as they were. *)
Definition order_user_deletion_policy (u : User.t) (o : Order.t) (w : World)
  : Prop :=
  orders (db w) !! Order.id o = Some o →
  (Order.user o = User.id u → order_after_user_delete u o w = None)
  ∧ (Order.delivery_crew o = Some (User.id u) →
     order_after_user_delete u o w = Some (rel_clear Order_delivery_crew o)).

(** What any reading of one [admin.register(model)] call satisfies: it adds
    no model but the one it is given. *)
Definition registers_only_its_argument
    (admin_register : ModelClass → list ModelClass → list ModelClass) : Prop :=
  ∀ model site x, x ∈ admin_register model site → x = model ∨ x ∈ site.

(** ** The soft-delete contract, per model *)

(** A stored, active record that is deleted stays in its table with its
    fields as they were, is flagged as deleted, is left out of the default
    retrieval and is found by the retrieval that includes deleted
    records. *)
Definition supports_soft_deletion (A : Type) `{SoftDelete A} `{EqDecision A}
  : Prop :=
  ∀ (self : A) (w : World),
    table (db w) !! pk self = Some self →
    get_deleted_at self = None →
    ∃ self' w',
      SoftDeleteObject_delete self w = (Return self', w')
      ∧ deleted self' = true
      ∧ table (db w') !! pk self = Some self'
      ∧ set_deleted_at None self' = self
      ∧ objects_all (A := A) (db w') !! pk self = None
      ∧ all_with_deleted (A := A) (db w') !! pk self = Some self'.

(** The stored row under the key of [self] is flagged as deleted. *)
Definition stored_deleted {A} `{SoftDelete A} (self : A) (d : DB) : Prop :=
  ∃ row, table d !! pk self = Some row ∧ deleted row = true.

(** [delete] is idempotent on the stored record.  On a record that is
    already flagged in the store a call returns, with the instance flagged
    and nothing changed.  After any call that returns, the record is in
    the store and flagged there, and so is the instance; hence a second
    call returns as well and changes nothing.  For a record that is stored
    as the instance holds it, both calls return. *)
Definition delete_is_idempotent (A : Type) `{SoftDelete A} `{EqDecision A}
  : Prop :=
  (∀ (self : A) (w : World),
     stored_deleted self (db w) →
     ∃ self', SoftDeleteObject_delete self w = (Return self', w)
              ∧ deleted self' = true)
  ∧ (∀ (self self1 : A) (w w1 : World),
       SoftDeleteObject_delete self w = (Return self1, w1) →
       deleted self1 = true
       ∧ pk self1 = pk self
       ∧ stored_deleted self (db w1)
       ∧ ∃ self2, SoftDeleteObject_delete self1 w1 = (Return self2, w1)
                  ∧ deleted self2 = true
                  ∧ stored_deleted self (db w1))
  ∧ (∀ (self : A) (w : World),
       table (db w) !! pk self = Some self →
       ∃ self1 w1 self2,
         SoftDeleteObject_delete self w = (Return self1, w1)
         ∧ SoftDeleteObject_delete self1 w1 = (Return self2, w1)
         ∧ stored_deleted self (db w1)).

(** The world after a soft delete has written the flagged instance. *)
Definition deleted_world {A} `{SoftDelete A} (self : A) (w : World) : World :=
  {| db := set_table
             (<[pk (set_deleted_at (Some (clock w)) self)
                := set_deleted_at (Some (clock w)) self]> (table (db w)))
             (db w);
     log := log w; clock := clock w |}.

(** The [unique_together] constraint of the cart table. *)
Definition cart_unique (tbl : gmap Z Cart.t) : Prop :=
  ∀ k1 k2 r1 r2,
    tbl !! k1 = Some r1 → tbl !! k2 = Some r2 →
    Cart.menuitem r1 = Cart.menuitem r2 → Cart.user r1 = Cart.user r2 →
    k1 = k2.

(** The world after the soft delete of [self] has written its flag. *)
Definition flagged_world {A} `{SoftDelete A} (self : A) (w : World) : World :=
  {| db := set_table
             (alter (set_deleted_at (Some (clock w))) (pk self)
                (table (db w))) (db w);
     log := log w; clock := clock w |}.

(** What the instances of [Model] and [SoftDelete] satisfy: [deleted_at]
    is a column of the row, apart from the primary key, and a table written
    is the table read. *)
Class SoftDeleteLaws (A : Type) `{SoftDelete A} : Prop := {
  get_set_deleted_at (v : option Z) (a : A) :
    get_deleted_at (set_deleted_at v a) = v;
  set_get_deleted_at (a : A) : set_deleted_at (get_deleted_at a) a = a;
  set_set_deleted_at (v v' : option Z) (a : A) :
    set_deleted_at v (set_deleted_at v' a) = set_deleted_at v a;
  pk_set_deleted_at (v : option Z) (a : A) : pk (set_deleted_at v a) = pk a;
  table_set_table (t : gmap Z A) (d : DB) : table (set_table t d) = t;
}.

(** ** Constraints over whole tables *)

(** No two rows of the table agree on [key]. *)
Definition unique_by {A K} (key : A → K) (tbl : gmap Z A) : Prop :=
  ∀ k1 k2 r1 r2,
    tbl !! k1 = Some r1 → tbl !! k2 = Some r2 → key r1 = key r2 → k1 = k2.

(** The fields of [OrderItem.Meta.unique_together]. *)
Definition OrderItem_unique_key (r : OrderItem.t) : Z * Z :=
  (OrderItem.menuitem r, OrderItem.order r).

(** All rows, flagged as deleted or not, of one order for one menu item. *)
Definition order_item_rows (o m : Z) (d : DB) : list (Z * OrderItem.t) :=
  map_to_list
    (filter (λ kr, OrderItem.order kr.2 = o ∧ OrderItem.menuitem kr.2 = m)
       (order_items d)).

(** Every row of [src] that holds a key in this column finds a row of
    [tgt] under it. *)
Definition refs_ok {A B} (rel : Relation A) (src : gmap Z A) (tgt : gmap Z B)
  : Prop :=
  ∀ k r t, src !! k = Some r → rel_get rel r = Some t → is_Some (tgt !! t).

(** No foreign key of [models.py] dangles. *)
Definition referential_integrity (d : DB) : Prop :=
  refs_ok MenuItem_category (menu_items d) (category d)
  ∧ refs_ok Order_user (orders d) (auth_user d)
  ∧ refs_ok Order_delivery_crew (orders d) (auth_user d)
  ∧ refs_ok OrderItem_order (order_items d) (orders d)
  ∧ refs_ok OrderItem_menuitem (order_items d) (menu_items d)
  ∧ refs_ok OrderItem_category (order_items d) (category d)
  ∧ refs_ok Cart_user (user_carts d) (auth_user d)
  ∧ refs_ok Cart_menuitem (user_carts d) (menu_items d).

(** No [MenuItem] row and no [OrderItem] row points at the category. *)
Definition unreferenced (self : Category.t) (d : DB) : Prop :=
  (∀ k r, menu_items d !! k = Some r →
          MenuItem.category r ≠ Category.id self)
  ∧ (∀ k r, order_items d !! k = Some r →
            OrderItem.category r ≠ Category.id self).

(** A cart row whose user is not in the user table. *)
Definition orphan_cart : Cart.t :=
  {| Cart.id := 7; Cart.deleted_at := None; Cart.user := 9;
     Cart.menuitem := 1; Cart.quantity := 1; Cart.unit_price := 500;
     Cart.price := 500 |}.

(** A second cart row for the user and item of [alice_pasta]. *)
Definition alice_pasta_again : Cart.t :=
  {| Cart.id := 2; Cart.deleted_at := None; Cart.user := 1;
     Cart.menuitem := 1; Cart.quantity := 1; Cart.unit_price := 500;
     Cart.price := 500 |}.

(** The menu item [pasta] with a new price. *)
Definition pasta_dearer : MenuItem.t :=
  {| MenuItem.id := 1; MenuItem.deleted_at := None; MenuItem.title := "Pasta";
     MenuItem.price := 650; MenuItem.featured := false;
     MenuItem.category := 1 |}.

(** All rows, flagged as deleted or not, of a user's cart for one menu
    item. *)
Definition cart_rows (u m : Z) (d : DB) : list (Z * Cart.t) :=
  map_to_list
    (filter (λ kr, Cart.user kr.2 = u ∧ Cart.menuitem kr.2 = m)
       (user_carts d)).

(** The requests that run [SoftDeleteObject.delete]. *)
Definition is_soft_delete (r : Request) : bool :=
  match r with
  | DeleteMenuItem _ | DeleteOrder _ | DeleteOrderItem _ | DeleteCart _
  | ResetCart _ => true
  | _ => false
  end.

(** * Properties *)

(** Membership of a closed list in which the element does not occur. *)
Ltac absurd_elem_of H :=
  repeat (apply elem_of_cons in H as [H|H]; [discriminate H|]);
  by apply elem_of_nil in H.

(** ** The monad *)

Lemma bind_Return {A B} (m : M A) (k : A → M B) w a w' :
  m w = (Return a, w') → bind m k w = k a w'.
Proof. intros E. unfold bind. by rewrite E. Qed.

Lemma bind_Raise {A B} (m : M A) (k : A → M B) w e w' :
  m w = (Raise e, w') → bind m k w = (Raise e, w').
Proof. intros E. unfold bind. by rewrite E. Qed.

Lemma fetch_Some {A} `{Model A} (k : Z) (r : A) w :
  table (db w) !! k = Some r → fetch k w = (Return r, w).
Proof. intros E. unfold fetch, bind, get_db. by rewrite E. Qed.

Lemma fetch_None {A} `{Model A} (k : Z) w :
  table (db w) !! k = None →
  fetch (A := A) k w = (Raise (ObjectDoesNotExist (db_table model_class)), w).
Proof. intros E. unfold fetch, bind, get_db. by rewrite E. Qed.

(** ** String conversion *)

Lemma Category_str_returns (self : Category.t) (w : World) :
  __str__ self w = (Return (Category.title self), w).
Proof. reflexivity. Qed.

Lemma MenuItem_str_returns (self : MenuItem.t) (w : World) :
  __str__ self w = (Return (MenuItem.title self), w).
Proof. reflexivity. Qed.

Lemma OrderItem_has_no_title (self : OrderItem.t) :
  "title" ∉ (attributes self).*1.
Proof. cbn. intros H. absurd_elem_of H. Qed.

(** C10: for every [OrderItem] instance, [__str__] raises: it reads
    [self.title], which is not among the attributes of an [OrderItem], so
    the conversion ends in [AttributeError] and never returns a string. *)
Theorem OrderItem_str_raises (self : OrderItem.t) (w : World) :
  __str__ self w = (Raise (AttributeError "OrderItem" "title"), w)
  ∧ ∀ s w', __str__ self w ≠ (Return s, w').
Proof.
  assert (__str__ self w = (Raise (AttributeError "OrderItem" "title"), w))
    as E by reflexivity.
  split; [exact E|]. intros s w' E'. rewrite E in E'. discriminate.
Qed.

(** ** Checkout *)

Lemma world_no_cart_empty : active_cart 1 (db world_no_cart) = ∅.
Proof. apply map_eq. intros k. vm_compute. reflexivity. Qed.

(** C1, as stated, fails: the user's cart is empty, checkout ends in
    [NotImplementedError], and that is not [EmptyCartError]. *)
Lemma checkout_empty_cart_not_EmptyCartError :
  active_cart (Cart.user alice_pasta) (db world_no_cart) = ∅
  ∧ checkout alice_pasta world_no_cart
    = (Raise NotImplementedError, world_no_cart)
  ∧ class_name NotImplementedError ≠ "EmptyCartError"
  ∧ ¬ empty_checkout_fails_with_EmptyCartError alice_pasta world_no_cart.
Proof.
  split; [exact world_no_cart_empty|]. split; [reflexivity|].
  split; [discriminate|].
  intros H. destruct (H world_no_cart_empty) as (e & E & T).
  unfold checkout, raise in E. inversion E; subst e. discriminate T.
Qed.

(** C1, amended: checkout is declared and not implemented; for every cart
    instance and every state, empty cart or not, it raises
    [NotImplementedError], an error outside the design taxonomy, and it
    leaves every table and the log as they were. *)
Theorem checkout_raises_NotImplementedError (self : Cart.t) (w : World) :
  checkout self w = (Raise NotImplementedError, w)
  ∧ taxonomy NotImplementedError = None.
Proof. split; reflexivity. Qed.

(** ** Registration with the admin site *)

Lemma admin_py_subset admin_register site x :
  registers_only_its_argument admin_register →
  x ∈ admin_py admin_register site → x ∈ admin_models ∨ x ∈ site.
Proof.
  intros Hreg. unfold admin_py. generalize admin_models as ms.
  intros ms. revert site. induction ms as [|m ms IH]; intros site Hx.
  - right. exact Hx.
  - cbn in Hx. apply IH in Hx as [Hx|Hx].
    + left. by apply elem_of_cons; right.
    + apply Hreg in Hx as [->|Hx]; [left; apply elem_of_cons; by left|by right].
Qed.

(** C3: the registration loop does not expose every entity.  [MenuItem] is
    an entity of the data model and is missing from the list the loop runs
    over, so whatever one [admin.register] call does with the model it is
    given, [MenuItem] is not registered by [admin.py]. *)
Theorem admin_py_omits_MenuItem admin_register site :
  registers_only_its_argument admin_register →
  MenuItemModel ∉ site →
  MenuItemModel ∈ entities
  ∧ MenuItemModel ∉ admin_py admin_register site.
Proof.
  intros Hreg Hsite. split.
  - unfold entities. repeat constructor.
  - intros Hin. apply admin_py_subset in Hin as [Hin|Hin]; [|done|done].
    unfold admin_models in Hin. absurd_elem_of Hin.
Qed.

Lemma register_now_only : registers_only_its_argument register_now.
Proof.
  intros m s x Hx. unfold register_now in Hx.
  apply elem_of_cons in Hx. exact Hx.
Defined.

Lemma admin_py_omits_MenuItem_witness :
  MenuItemModel ∈ entities ∧ MenuItemModel ∉ admin_py register_now [].
Proof.
  apply (admin_py_omits_MenuItem register_now []).
  - exact register_now_only.
  - apply not_elem_of_nil.
Defined.

(** Read as Django defines the decorator factory, the loop registers
    nothing at all. *)
Lemma admin_py_decorator_unused (site : list ModelClass) :
  admin_py register_decorator_unused site = site.
Proof. reflexivity. Qed.

(** ** Cart rows: [save] and the price column *)

Lemma save_Return {A} `{Model A} (self : A) (w w' : World) :
  save self w = (Return tt, w') →
  constraints (db w) self = None
  ∧ w' = {| db := set_table (<[pk self := self]> (table (db w))) (db w);
            log := log w; clock := clock w |}.
Proof.
  unfold save, bind, get_db. cbv beta iota.
  destruct (constraints (db w) self) as [c|]; unfold raise, put_db;
    intros E; inversion E; auto.
Qed.

Lemma save_Cart_stored (self : Cart.t) (w w' : World) :
  save self w = (Return tt, w') →
  user_carts (db w') !! Cart.id self = Some self.
Proof.
  intros E. apply save_Return in E as [_ ->]. cbn. apply lookup_insert_eq.
Qed.

Lemma save_quantity_world_one_cart :
  save (set_quantity 3 alice_pasta) world_one_cart
  = (Return tt,
     run [SaveCart (set_quantity 3 alice_pasta)] world_one_cart).
Proof. vm_compute. reflexivity. Qed.

(** C2, as stated, fails: a cart row holding two portions at 5.00 with
    price 10.00 has its quantity set to three and is saved; the stored row
    keeps price 10.00, which is not 5.00 times three. *)
Lemma quantity_change_keeps_old_price :
  price_is_product alice_pasta
  ∧ ¬ price_recomputed_after (set_quantity 3) alice_pasta world_one_cart.
Proof.
  split; [reflexivity|]. intros H.
  specialize (H _ (set_quantity 3 alice_pasta) save_quantity_world_one_cart).
  assert (price_is_product (set_quantity 3 alice_pasta)) as P.
  { apply H.
    exact (save_Cart_stored (set_quantity 3 alice_pasta) _ _
             save_quantity_world_one_cart). }
  unfold price_is_product in P. cbn in P. discriminate P.
Qed.

(** C2, amended: [price] is a column of its own.  A mutation of [quantity]
    or of [unit_price] that is saved stores the row as assigned, with the
    price it had before; nothing recomputes the product, so the stored row
    has [price = unit_price * quantity] exactly when the old price happens
    to equal the new product. *)
Theorem cart_price_is_stored_not_recomputed
    (mutate : Cart.t → Cart.t) (v : Z) (self : Cart.t) (w w' : World) :
  mutate = set_quantity v ∨ mutate = set_unit_price v →
  save (mutate self) w = (Return tt, w') →
  user_carts (db w') !! Cart.id self = Some (mutate self)
  ∧ Cart.price (mutate self) = Cart.price self
  ∧ (price_is_product (mutate self) ↔
     Cart.price self
     = Cart.unit_price (mutate self) * Cart.quantity (mutate self)).
Proof.
  intros Hm E.
  assert (Cart.id (mutate self) = Cart.id self
          ∧ Cart.price (mutate self) = Cart.price self) as [Hid Hp]
    by (destruct Hm as [-> | ->]; split; reflexivity).
  apply save_Cart_stored in E. rewrite Hid in E.
  split; [exact E|]. split; [exact Hp|].
  unfold price_is_product. by rewrite Hp.
Qed.

Lemma cart_price_is_stored_not_recomputed_witness :
  user_carts (db (run [SaveCart (set_quantity 3 alice_pasta)] world_one_cart))
    !! Cart.id alice_pasta = Some (set_quantity 3 alice_pasta)
  ∧ Cart.price (set_quantity 3 alice_pasta) = Cart.price alice_pasta
  ∧ (price_is_product (set_quantity 3 alice_pasta) ↔
     Cart.price alice_pasta
     = Cart.unit_price (set_quantity 3 alice_pasta)
       * Cart.quantity (set_quantity 3 alice_pasta)).
Proof.
  apply (cart_price_is_stored_not_recomputed (set_quantity 3) 3 alice_pasta
           world_one_cart).
  - left. reflexivity.
  - vm_compute. reflexivity.
Defined.

(** ** [reset_cart] *)

Lemma Cart_getattr_user (self : Cart.t) w :
  getattr self "user" w = (Return (PyRelated UserModel (Cart.user self)), w).
Proof. reflexivity. Qed.

Lemma Cart_getattr_id (self : Cart.t) w :
  getattr self "id" w = (Return (PyInt (Cart.id self)), w).
Proof. reflexivity. Qed.

Lemma User_getattr_last_name (u : User.t) w :
  getattr u "last_name" w = (Return (PyStr (User.last_name u)), w).
Proof. reflexivity. Qed.

Lemma getattr_of_user_last_name (k : Z) (u : User.t) w :
  auth_user (db w) !! k = Some u →
  getattr_of (PyRelated UserModel k) "last_name" w
  = (Return (PyStr (User.last_name u)), w).
Proof.
  intros Hu. unfold getattr_of.
  rewrite (bind_Return _ _ w u w) by (by apply fetch_Some).
  apply User_getattr_last_name.
Qed.

(** With the user of the cart in place, [reset_cart] logs its warning,
    calls [delete], and turns its outcome into the outcome of the call. *)
Lemma reset_cart_with_reaches_delete delete self w u :
  auth_user (db w) !! Cart.user self = Some u →
  reset_cart_with delete self w =
    match delete self (logged (reset_cart_warning self u) w) with
    | (Return _, w2) => (Return tt, w2)
    | (Raise e, w2) =>
        if isinstance_Exception e
        then (Return tt, logged (reset_cart_error e) w2)
        else (Raise e, w2)
    end.
Proof.
  intros Hu. unfold reset_cart_with, try_except_Exception.
  rewrite (bind_Return _ _ _ _ _ (Cart_getattr_user self w)).
  rewrite (bind_Return _ _ _ _ _ (getattr_of_user_last_name _ _ w Hu)).
  rewrite (bind_Return _ _ _ _ _ (Cart_getattr_id self w)).
  rewrite (bind_Return _ _ w tt (logged (reset_cart_warning self u) w))
    by reflexivity.
  unfold bind.
  destruct (delete self (logged (reset_cart_warning self u) w)) as [[c|e] w2];
    reflexivity.
Qed.

Lemma world_one_cart_alice :
  auth_user (db world_one_cart) !! Cart.user alice_pasta = Some alice.
Proof. vm_compute. reflexivity. Qed.

(** C4, as stated, fails: a [delete] interrupted by [KeyboardInterrupt],
    which is not an [Exception], is neither caught nor logged; the
    interrupt reaches the caller of [reset_cart]. *)
Lemma reset_cart_propagates_KeyboardInterrupt :
  ¬ reset_cart_swallows (λ _, raise KeyboardInterrupt)
      alice_pasta world_one_cart
  ∧ reset_cart_with (λ _, raise KeyboardInterrupt) alice_pasta world_one_cart
    = (Raise KeyboardInterrupt,
       logged (reset_cart_warning alice_pasta alice) world_one_cart).
Proof.
  assert (reset_cart_with (λ _, raise KeyboardInterrupt) alice_pasta
            world_one_cart
          = (Raise KeyboardInterrupt,
             logged (reset_cart_warning alice_pasta alice) world_one_cart))
    as E.
  { rewrite (reset_cart_with_reaches_delete _ _ _ alice world_one_cart_alice).
    reflexivity. }
  split; [|exact E]. intros H.
  specialize (H alice KeyboardInterrupt _ world_one_cart_alice eq_refl).
  rewrite E in H. discriminate H.
Qed.

(** C4, amended: if the [delete] performed inside [reset_cart] raises an
    exception that is an instance of [Exception], [reset_cart] catches it,
    logs it at error level with the exception attached and returns
    normally; an exception outside [Exception] ([KeyboardInterrupt],
    [SystemExit], [GeneratorExit]) is not caught and reaches the caller. *)
Theorem reset_cart_swallows_Exception
    (delete : Cart.t → M Cart.t) (self : Cart.t) (w w2 : World)
    (u : User.t) (e : PyException) :
  auth_user (db w) !! Cart.user self = Some u →
  delete self (logged (reset_cart_warning self u) w) = (Raise e, w2) →
  reset_cart_with delete self w
  = if isinstance_Exception e
    then (Return tt, logged (reset_cart_error e) w2)
    else (Raise e, w2).
Proof.
  intros Hu Hd. rewrite (reset_cart_with_reaches_delete _ _ _ u Hu).
  by rewrite Hd.
Qed.

Lemma reset_cart_swallows_Exception_witness :
  reset_cart_with (λ _, raise (OperationalError "database is locked"))
    alice_pasta world_one_cart
  = (Return tt,
     logged (reset_cart_error (OperationalError "database is locked"))
       (logged (reset_cart_warning alice_pasta alice) world_one_cart)).
Proof.
  apply (reset_cart_swallows_Exception
           (λ _, raise (OperationalError "database is locked"))
           alice_pasta world_one_cart _ alice
           (OperationalError "database is locked")).
  - vm_compute. reflexivity.
  - reflexivity.
Defined.

(** The method as the class has it, with the soft delete of the mixin:
    the row is flagged and the call returns. *)
Lemma reset_cart_world_one_cart :
  ∃ w', reset_cart alice_pasta world_one_cart = (Return tt, w')
        ∧ Cart.deleted_at <$> user_carts (db w') !! 1 = Some (Some 0)
        ∧ level <$> log w' = [WARNING].
Proof. eexists. split; [vm_compute; reflexivity|]. split; reflexivity. Qed.

(** ** Hard deletion: [PROTECT], [CASCADE] and [SET_NULL] *)

Lemma refers_singleton {A} (rel : Relation A) (k : Z) (r : A) :
  refers rel {[ k ]} r = true ↔ rel_get rel r = Some k.
Proof.
  unfold refers. destruct (rel_get rel r) as [k'|].
  - rewrite bool_decide_eq_true, elem_of_singleton. split; congruence.
  - split; discriminate.
Qed.

Lemma refers_singleton_false {A} (rel : Relation A) (k : Z) (r : A) :
  refers rel {[ k ]} r = false ↔ rel_get rel r ≠ Some k.
Proof.
  rewrite <- refers_singleton. destruct (refers rel {[ k ]} r); split;
    congruence.
Qed.

(** The foreign keys that point at a model: the ones its [delete] has to
    collect. *)
Lemma foreign_keys_to_Category :
  filter (λ fk, fk_to fk = CategoryModel) foreign_keys
  = [rel_fk MenuItem_category; rel_fk OrderItem_category].
Proof. reflexivity. Qed.

Lemma foreign_keys_to_User :
  filter (λ fk, fk_to fk = UserModel) foreign_keys
  = [rel_fk Order_user; rel_fk Order_delivery_crew; rel_fk Cart_user].
Proof. reflexivity. Qed.

Lemma foreign_keys_to_Order :
  filter (λ fk, fk_to fk = OrderModel) foreign_keys = [rel_fk OrderItem_order].
Proof. reflexivity. Qed.

Lemma foreign_keys_to_OrderItem_or_Cart :
  filter (λ fk, fk_to fk = OrderItemModel ∨ fk_to fk = CartModel) foreign_keys
  = [].
Proof. reflexivity. Qed.

(** A [PROTECT] column with a referring row blocks. *)
Lemma collect_PROTECT_Blocked {A} (rel : Relation A) targets tbl k r :
  fk_on_delete (rel_fk rel) = PROTECT →
  tbl !! k = Some r → refers rel targets r = true →
  ∃ rows, collect rel targets tbl = Blocked rows.
Proof.
  intros Hp Hk Hr. unfold collect. rewrite Hp.
  destruct (decide (filter (λ kr, refers rel targets kr.2 = true) tbl = ∅))
    as [He|Hne].
  - exfalso. eapply (map_filter_empty_not_lookup _ tbl k r He); [exact Hr|].
    exact Hk.
  - eauto.
Qed.

(** A [PROTECT] column without referring rows lets the table through. *)
Lemma collect_PROTECT_Kept {A} (rel : Relation A) targets tbl :
  fk_on_delete (rel_fk rel) = PROTECT →
  (∀ k r, tbl !! k = Some r → refers rel targets r = false) →
  collect rel targets tbl = Kept tbl ∅.
Proof.
  intros Hp Hno. unfold collect. rewrite Hp.
  destruct (decide (filter (λ kr, refers rel targets kr.2 = true) tbl = ∅))
    as [He|Hne]; [done|].
  exfalso. apply Hne. apply map_empty. intros k.
  apply map_lookup_filter_None. destruct (tbl !! k) as [r|] eqn:E; [|by left].
  right. intros x [= <-]. cbn. rewrite (Hno k r E). discriminate.
Qed.

Lemma Category_delete_Blocked_l self w rows :
  collect MenuItem_category {[ Category.id self ]} (menu_items (db w))
  = Blocked rows →
  ∃ objs, Category_delete self w = (Raise (ProtectedError "Category" objs), w).
Proof.
  intros E. unfold Category_delete, bind, get_db. cbv beta iota zeta.
  rewrite E. eexists. reflexivity.
Qed.

Lemma Category_delete_Blocked_r self w rows :
  collect OrderItem_category {[ Category.id self ]} (order_items (db w))
  = Blocked rows →
  ∃ objs, Category_delete self w = (Raise (ProtectedError "Category" objs), w).
Proof.
  intros E. unfold Category_delete, bind, get_db. cbv beta iota zeta.
  rewrite E.
  destruct (collect MenuItem_category _ _); eexists; reflexivity.
Qed.

(** C5: deleting a [Category] that a [MenuItem] row or an [OrderItem] row
    still references is rejected: [delete] raises [ProtectedError], the
    referential-integrity error, and the database is as it was, so the
    category is still present. *)
Theorem Category_delete_protected (self : Category.t) (w : World) :
  (∃ k r, menu_items (db w) !! k = Some r
          ∧ MenuItem.category r = Category.id self)
  ∨ (∃ k r, order_items (db w) !! k = Some r
            ∧ OrderItem.category r = Category.id self) →
  ∃ e, Category_delete self w = (Raise e, w)
       ∧ class_name e = "ProtectedError"
       ∧ taxonomy e = Some ReferentialIntegrityError
       ∧ category (db (Category_delete self w).2) = category (db w).
Proof.
  intros [(k & r & Hk & Hr)|(k & r & Hk & Hr)].
  - destruct (collect_PROTECT_Blocked MenuItem_category
                {[ Category.id self ]} (menu_items (db w)) k r eq_refl Hk)
      as [rows Hrows].
    { apply refers_singleton. cbn. by rewrite Hr. }
    destruct (Category_delete_Blocked_l self w rows Hrows) as [objs E].
    exists (ProtectedError "Category" objs). rewrite E. auto.
  - destruct (collect_PROTECT_Blocked OrderItem_category
                {[ Category.id self ]} (order_items (db w)) k r eq_refl Hk)
      as [rows Hrows].
    { apply refers_singleton. cbn. by rewrite Hr. }
    destruct (Category_delete_Blocked_r self w rows Hrows) as [objs E].
    exists (ProtectedError "Category" objs). rewrite E. auto.
Qed.

Lemma Category_delete_protected_witness :
  ∃ e, Category_delete mains world_no_cart = (Raise e, world_no_cart)
       ∧ class_name e = "ProtectedError"
       ∧ taxonomy e = Some ReferentialIntegrityError
       ∧ category (db (Category_delete mains world_no_cart).2)
         = category (db world_no_cart).
Proof.
  apply (Category_delete_protected mains world_no_cart).
  left. exists 1, pasta. split; [vm_compute; reflexivity | reflexivity].
Defined.

(** A [Category] that nothing references is removed from its table. *)
Lemma Category_delete_unreferenced (self : Category.t) (w : World) :
  (∀ k r, menu_items (db w) !! k = Some r →
          MenuItem.category r ≠ Category.id self) →
  (∀ k r, order_items (db w) !! k = Some r →
          OrderItem.category r ≠ Category.id self) →
  ∃ w', Category_delete self w = (Return tt, w')
        ∧ category (db w') = delete (Category.id self) (category (db w)).
Proof.
  intros Hm Ho. unfold Category_delete, bind, get_db. cbv beta iota zeta.
  rewrite (collect_PROTECT_Kept MenuItem_category) by
    (try done; intros k r E; apply refers_singleton_false; cbn;
     specialize (Hm k r E); congruence).
  rewrite (collect_PROTECT_Kept OrderItem_category) by
    (try done; intros k r E; apply refers_singleton_false; cbn;
     specialize (Ho k r E); congruence).
  eexists. split; reflexivity.
Qed.

(** Deleting a user always goes through, and leaves these orders. *)
Lemma User_delete_orders (u : User.t) (w : World) :
  User_delete u w = (Return tt, (User_delete u w).2)
  ∧ orders (db (User_delete u w).2)
    = (λ r, if refers Order_delivery_crew {[ User.id u ]} r
            then rel_clear Order_delivery_crew r else r)
      <$> filter (λ kr, refers Order_user {[ User.id u ]} kr.2 = false)
            (orders (db w)).
Proof. split; reflexivity. Qed.

Lemma world_orders_own_delivery :
  orders (db world_orders) !! Order.id alice_own_delivery
  = Some alice_own_delivery.
Proof. vm_compute. reflexivity. Qed.

(** C9, as stated, fails: an order whose owner is also its delivery crew
    does not survive the deletion of that user. *)
Lemma owner_as_delivery_crew_order_deleted :
  ¬ order_user_deletion_policy alice alice_own_delivery world_orders.
Proof.
  intros H. destruct (H world_orders_own_delivery) as [H1 H2].
  specialize (H1 eq_refl). specialize (H2 eq_refl).
  rewrite H1 in H2. discriminate H2.
Qed.

(** C9, amended: deleting the owning user deletes the order; deleting a
    user who is referenced as [delivery_crew] and is not the owner sets
    that reference to null, and the order survives with its other fields
    as they were. *)
Theorem user_delete_order_policy (u : User.t) (o : Order.t) (w : World) :
  orders (db w) !! Order.id o = Some o →
  User_delete u w = (Return tt, (User_delete u w).2)
  ∧ (Order.user o = User.id u → order_after_user_delete u o w = None)
  ∧ (Order.user o ≠ User.id u →
     Order.delivery_crew o = Some (User.id u) →
     ∃ o', order_after_user_delete u o w = Some o'
           ∧ Order.delivery_crew o' = None
           ∧ Order.id o' = Order.id o
           ∧ Order.deleted_at o' = Order.deleted_at o
           ∧ Order.user o' = Order.user o
           ∧ Order.status o' = Order.status o
           ∧ Order.total o' = Order.total o
           ∧ Order.date o' = Order.date o).
Proof.
  intros Ho. destruct (User_delete_orders u w) as [E Hor].
  split; [exact E|]. unfold order_after_user_delete. rewrite Hor.
  rewrite lookup_fmap. split.
  - intros Hu. rewrite (map_lookup_filter_None_2 _ (orders (db w))); [done|].
    right. intros x Hx Hf. rewrite Ho in Hx. injection Hx as <-.
    cbn [snd] in Hf. apply refers_singleton_false in Hf. apply Hf.
    cbn. by rewrite Hu.
  - intros Hu Hc.
    rewrite (map_lookup_filter_Some_2 _ (orders (db w)) _ o Ho); cycle 1.
    { cbn [snd]. apply refers_singleton_false. cbn. congruence. }
    cbn [fmap option_fmap option_map].
    assert (refers Order_delivery_crew {[ User.id u ]} o = true) as ->
      by (by apply refers_singleton).
    eexists. split; [reflexivity|]. cbn. tauto.
Qed.

Lemma user_delete_order_policy_witness :
  User_delete bob world_orders = (Return tt, (User_delete bob world_orders).2)
  ∧ (Order.user alice_order_bob_delivers = User.id bob →
     order_after_user_delete bob alice_order_bob_delivers world_orders = None)
  ∧ (Order.user alice_order_bob_delivers ≠ User.id bob →
     Order.delivery_crew alice_order_bob_delivers = Some (User.id bob) →
     ∃ o', order_after_user_delete bob alice_order_bob_delivers world_orders
           = Some o'
           ∧ Order.delivery_crew o' = None
           ∧ Order.id o' = Order.id alice_order_bob_delivers
           ∧ Order.deleted_at o' = Order.deleted_at alice_order_bob_delivers
           ∧ Order.user o' = Order.user alice_order_bob_delivers
           ∧ Order.status o' = Order.status alice_order_bob_delivers
           ∧ Order.total o' = Order.total alice_order_bob_delivers
           ∧ Order.date o' = Order.date alice_order_bob_delivers).
Proof.
  apply (user_delete_order_policy bob alice_order_bob_delivers world_orders).
  vm_compute. reflexivity.
Defined.

(** On the sample data: deleting the owner removes both orders and, through
    them, the order item; deleting the delivery crew keeps the order. *)
Lemma user_delete_world_orders :
  orders (db (User_delete alice world_orders).2) = ∅
  ∧ order_items (db (User_delete alice world_orders).2) = ∅
  ∧ orders (db (User_delete bob world_orders).2) !! 2
    = Some (rel_clear Order_delivery_crew alice_order_bob_delivers)
  ∧ orders (db (User_delete bob world_orders).2) !! 1
    = Some alice_own_delivery.
Proof. repeat split; vm_compute; reflexivity. Qed.

(** ** Soft deletion *)

Global Instance MenuItem_SoftDeleteLaws : SoftDeleteLaws MenuItem.t.
Proof. split; try done; by intros; destruct a. Qed.

Global Instance Order_SoftDeleteLaws : SoftDeleteLaws Order.t.
Proof. split; try done; by intros; destruct a. Qed.

Global Instance OrderItem_SoftDeleteLaws : SoftDeleteLaws OrderItem.t.
Proof. split; try done; by intros; destruct a. Qed.

Global Instance Cart_SoftDeleteLaws : SoftDeleteLaws Cart.t.
Proof. split; try done; by intros; destruct a. Qed.

Lemma save_or_log_outcome {A} `{Model A} (self : A) (w : World) :
  save_or_log self w
  = match constraints (db w) self with
    | None =>
        (Return self,
         {| db := set_table (<[pk self := self]> (table (db w))) (db w);
            log := log w; clock := clock w |})
    | Some c =>
        (Raise (IntegrityError c),
         logged (delete_error self (IntegrityError c)) w)
    end.
Proof.
  unfold save_or_log, try_except_Exception, save, bind, get_db.
  cbv beta iota. by destruct (constraints (db w) self).
Qed.

(** The four ways a soft delete can go: the stored record is already
    flagged; the instance holds the stored columns and is written; the
    instance is written after the checks of [save]; the checks refuse it. *)
Lemma soft_delete_cases {A} `{SoftDelete A} `{EqDecision A}
    (self : A) (w : World) :
  (∃ row t, table (db w) !! pk self = Some row
            ∧ get_deleted_at row = Some t
            ∧ SoftDeleteObject_delete self w
              = (Return (set_deleted_at (Some t) self), w))
  ∨ (table (db w) !! pk self = Some (set_deleted_at None self)
     ∧ get_deleted_at (set_deleted_at None self) = None
     ∧ SoftDeleteObject_delete self w
       = (Return (set_deleted_at (Some (clock w)) self), deleted_world self w))
  ∨ (constraints (db w) (set_deleted_at (Some (clock w)) self) = None
     ∧ SoftDeleteObject_delete self w
       = (Return (set_deleted_at (Some (clock w)) self), deleted_world self w))
  ∨ (∃ c, constraints (db w) (set_deleted_at (Some (clock w)) self) = Some c
          ∧ SoftDeleteObject_delete self w
            = (Raise (IntegrityError c),
               logged (delete_error (set_deleted_at (Some (clock w)) self)
                         (IntegrityError c)) w)).
Proof.
  assert (∀ m : M A,
            m = save_or_log (set_deleted_at (Some (clock w)) self) →
            (constraints (db w) (set_deleted_at (Some (clock w)) self) = None
             ∧ m w = (Return (set_deleted_at (Some (clock w)) self),
                      deleted_world self w))
            ∨ (∃ c, constraints (db w) (set_deleted_at (Some (clock w)) self)
                    = Some c
                    ∧ m w = (Raise (IntegrityError c),
                             logged (delete_error
                                       (set_deleted_at (Some (clock w)) self)
                                       (IntegrityError c)) w))) as Hsave.
  { intros m ->. rewrite save_or_log_outcome.
    destruct (constraints (db w) _) as [c|]; [right; eauto|by left]. }
  unfold SoftDeleteObject_delete, bind, get_db, timezone_now.
  cbv beta iota zeta.
  destruct (table (db w) !! pk self) as [row|] eqn:Hrow.
  - destruct (get_deleted_at row) as [t|] eqn:Ht.
    + left. by exists row, t.
    + destruct (decide (row = set_deleted_at None self)) as [->|Hne].
      * right. left. by repeat split.
      * right. right. by apply Hsave.
  - right. right. by apply Hsave.
Qed.

Lemma discard_world {A} (m : M A) (w : World) : (discard m w).2 = (m w).2.
Proof. unfold discard, bind. by destruct (m w) as [[a|e] w']. Qed.

(** The database after a soft delete: as it was, or with the flagged
    instance written over a row that held the same columns, or with the
    flagged instance written after the checks of [save]. *)
Lemma soft_delete_db {A} `{SoftDelete A} `{EqDecision A}
    (self : A) (w : World) :
  db (SoftDeleteObject_delete self w).2 = db w
  ∨ (table (db w) !! pk self = Some (set_deleted_at None self)
     ∧ db (SoftDeleteObject_delete self w).2 = db (deleted_world self w))
  ∨ (constraints (db w) (set_deleted_at (Some (clock w)) self) = None
     ∧ db (SoftDeleteObject_delete self w).2 = db (deleted_world self w)).
Proof.
  destruct (soft_delete_cases self w)
    as [(row & t & _ & _ & E)|[(Hrow & _ & E)|[(Hc & E)|(c & _ & E)]]];
    rewrite E; cbn [snd]; auto.
Qed.

Section soft_delete.
Context {A : Type} `{SoftDeleteLaws A} `{EqDecision A}.
Implicit Types (self : A) (w : World).

Lemma deleted_set_Some self t : deleted (set_deleted_at (Some t) self) = true.
Proof.
  unfold deleted. rewrite get_set_deleted_at. by apply bool_decide_eq_true.
Qed.

Lemma deleted_Some self : deleted self = true ↔ ∃ t, get_deleted_at self = Some t.
Proof. unfold deleted. by rewrite bool_decide_eq_true. Qed.

(** A stored, active record that is deleted through an instance that holds
    its columns is written, flagged. *)
Lemma delete_active self w :
  table (db w) !! pk self = Some self →
  get_deleted_at self = None →
  SoftDeleteObject_delete self w
  = (Return (set_deleted_at (Some (clock w)) self), deleted_world self w).
Proof.
  intros Hstored Hactive.
  assert (set_deleted_at None self = self) as Hsync
    by (by rewrite <- Hactive, set_get_deleted_at).
  unfold SoftDeleteObject_delete, bind, get_db, timezone_now.
  cbv beta iota zeta. rewrite Hstored, Hactive, Hsync.
  by destruct (decide (self = self)).
Qed.

(** On a record that is flagged in the store, [delete] changes nothing. *)
Lemma delete_stored_deleted self w :
  stored_deleted self (db w) →
  ∃ self', SoftDeleteObject_delete self w = (Return self', w)
           ∧ deleted self' = true.
Proof.
  intros (row & Hrow & Hd). apply deleted_Some in Hd as [t Ht].
  exists (set_deleted_at (Some t) self). split; [|apply deleted_set_Some].
  unfold SoftDeleteObject_delete, bind, get_db, timezone_now.
  cbv beta iota zeta. by rewrite Hrow, Ht.
Qed.

Lemma deleted_world_stored self w :
  table (db (deleted_world self w)) !! pk self
  = Some (set_deleted_at (Some (clock w)) self).
Proof.
  cbn. rewrite table_set_table, pk_set_deleted_at. apply lookup_insert_eq.
Qed.

(** After a [delete] that returns, the instance is flagged and the record
    is in the store, flagged. *)
Lemma delete_Return self self1 w w1 :
  SoftDeleteObject_delete self w = (Return self1, w1) →
  deleted self1 = true ∧ pk self1 = pk self ∧ stored_deleted self (db w1).
Proof.
  intros E.
  destruct (soft_delete_cases self w)
    as [(row & t & Hrow & Ht & E')|[(_ & _ & E')|[(_ & E')|(c & _ & E')]]];
    rewrite E' in E; try discriminate; injection E as <- <-.
  - split; [apply deleted_set_Some|]. split; [apply pk_set_deleted_at|].
    exists row. split; [exact Hrow|]. apply deleted_Some. eauto.
  - split; [apply deleted_set_Some|]. split; [apply pk_set_deleted_at|].
    eexists. split; [apply deleted_world_stored|apply deleted_set_Some].
  - split; [apply deleted_set_Some|]. split; [apply pk_set_deleted_at|].
    eexists. split; [apply deleted_world_stored|apply deleted_set_Some].
Qed.

Lemma supports_soft_deletion_generic : supports_soft_deletion A.
Proof.
  intros self w Hstored Hactive.
  exists (set_deleted_at (Some (clock w)) self), (deleted_world self w).
  pose proof (deleted_world_stored self w) as Hrow.
  split; [by apply delete_active|]. split; [apply deleted_set_Some|].
  split; [exact Hrow|]. split.
  { by rewrite set_set_deleted_at, <- Hactive, set_get_deleted_at. }
  split; [|exact Hrow].
  unfold objects_all. apply map_lookup_filter_None_2. right.
  intros x Hx. rewrite Hrow in Hx. injection Hx as <-. cbn.
  by rewrite get_set_deleted_at.
Qed.

Lemma delete_is_idempotent_generic : delete_is_idempotent A.
Proof.
  split; [exact delete_stored_deleted|]. split.
  - intros self self1 w w1 E.
    destruct (delete_Return _ _ _ _ E) as (D1 & Hpk & Hst).
    split; [exact D1|]. split; [exact Hpk|]. split; [exact Hst|].
    destruct (delete_stored_deleted self1 w1) as (self2 & E2 & D2).
    { destruct Hst as (row & Hrow & Hd). exists row. by rewrite Hpk. }
    eauto.
  - intros self w Hstored.
    assert (∃ self1 w1, SoftDeleteObject_delete self w = (Return self1, w1))
      as (self1 & w1 & E).
    { destruct (get_deleted_at self) as [t|] eqn:Ht.
      - destruct (delete_stored_deleted self w) as (self' & E & _); [|eauto].
        exists self. split; [exact Hstored|]. apply deleted_Some. eauto.
      - rewrite (delete_active self w Hstored Ht). eauto. }
    destruct (delete_Return _ _ _ _ E) as (D1 & Hpk & Hst).
    destruct (delete_stored_deleted self1 w1) as (self2 & E2 & D2).
    { destruct Hst as (row & Hrow & Hd). exists row. by rewrite Hpk. }
    exists self1, w1, self2. auto.
Qed.
End soft_delete.

Lemma soft_deletable_entities (m : ModelClass) :
  m ∈ entities → (soft_deletable m = true ↔ m ≠ CategoryModel).
Proof.
  intros Hm. destruct m; try absurd_elem_of Hm;
    (split; [intros E; try discriminate; vm_compute in E; discriminate
            | intros N; try reflexivity; by destruct N]).
Qed.

(** C6: of the five entities, exactly those other than [Category] have
    [SoftDeleteObject] among their bases.  For [MenuItem], [Order],
    [OrderItem] and [Cart], deleting a stored record flags it instead of
    erasing it: the row stays in its table with its other fields intact
    (clearing the flag gives the record back), the default retrieval leaves
    it out and the retrieval that includes deleted records finds it.
    [Category] is not soft-deletable: its delete removes the row. *)
Theorem soft_deletion_of_entities :
  (∀ m, m ∈ entities → (soft_deletable m = true ↔ m ≠ CategoryModel))
  ∧ supports_soft_deletion MenuItem.t
  ∧ supports_soft_deletion Order.t
  ∧ supports_soft_deletion OrderItem.t
  ∧ supports_soft_deletion Cart.t
  ∧ (∀ (self : Category.t) (w : World),
       (∀ k r, menu_items (db w) !! k = Some r →
               MenuItem.category r ≠ Category.id self) →
       (∀ k r, order_items (db w) !! k = Some r →
               OrderItem.category r ≠ Category.id self) →
       ∃ w', Category_delete self w = (Return tt, w')
             ∧ category (db w') !! Category.id self = None).
Proof.
  split; [exact soft_deletable_entities|].
  do 4 (split; [exact supports_soft_deletion_generic|]).
  intros self w Hm Ho.
  destruct (Category_delete_unreferenced self w Hm Ho) as (w' & E & Hc).
  exists w'. split; [exact E|]. rewrite Hc. apply lookup_delete_eq.
Qed.

(** On the sample data: the cart row, once deleted, is still stored. *)
Lemma soft_delete_world_one_cart :
  ∃ self' w',
    SoftDeleteObject_delete alice_pasta world_one_cart = (Return self', w')
    ∧ user_carts (db w') !! 1 = Some self'
    ∧ Cart.deleted_at self' = Some 0
    ∧ objects_all (A := Cart.t) (db w') = ∅.
Proof.
  do 2 eexists. split; [vm_compute; reflexivity|].
  split; [reflexivity|]. split; [reflexivity|].
  apply map_eq. intros k. vm_compute. reflexivity.
Qed.

(** C7: for every instance of a soft-deletable entity, [delete] is
    idempotent.  Called on a record that is already flagged as deleted in
    the store, it never raises, returns the instance flagged and changes
    nothing.  After any call that returns, the record is in the store and
    flagged there, so a second call returns as well, never raises, and the
    record is flagged as deleted after both calls.  For a record that is
    stored as the instance holds it, neither of the two calls raises. *)
Theorem delete_twice_never_raises :
  delete_is_idempotent MenuItem.t
  ∧ delete_is_idempotent Order.t
  ∧ delete_is_idempotent OrderItem.t
  ∧ delete_is_idempotent Cart.t.
Proof.
  split; [exact delete_is_idempotent_generic|].
  split; [exact delete_is_idempotent_generic|].
  split; exact delete_is_idempotent_generic.
Qed.

(** On the sample data: the stored cart row, deleted twice through the
    instance that was read before the first call, stays stored and
    flagged, and the second call changes nothing. *)
Lemma delete_twice_world_one_cart :
  ∃ self1 w1 self2,
    SoftDeleteObject_delete alice_pasta world_one_cart = (Return self1, w1)
    ∧ SoftDeleteObject_delete alice_pasta w1 = (Return self2, w1)
    ∧ Cart.deleted_at <$> user_carts (db w1) !! 1 = Some (Some 0)
    ∧ Cart.deleted_at self2 = Some 0.
Proof.
  do 3 eexists. split; [vm_compute; reflexivity|].
  split; [vm_compute; reflexivity|]. split; reflexivity.
Qed.

(** A soft delete through an instance that has no stored row and repeats
    the user and item of a stored row is refused by [unique_together]: the
    failure is logged and raised, and the store is as it was. *)
Lemma delete_failure_logged_and_raised :
  ∃ e w',
    SoftDeleteObject_delete
      {| Cart.id := 2; Cart.deleted_at := None; Cart.user := 1;
         Cart.menuitem := 1; Cart.quantity := 1; Cart.unit_price := 500;
         Cart.price := 500 |} world_one_cart = (Raise e, w')
    ∧ db w' = db world_one_cart
    ∧ exc_info <$> log w' = [Some e]
    ∧ level <$> log w' = [ERROR].
Proof.
  do 2 eexists. split; [vm_compute; reflexivity|].
  split; [reflexivity|]. split; reflexivity.
Qed.

(** ** The [unique_together] invariant of the cart table *)

Lemma cart_unique_empty : cart_unique ∅.
Proof. intros k1 k2 r1 r2 H. by rewrite lookup_empty in H. Qed.

(** A table whose rows all come from rows of [tbl] under the same key, with
    the same user and menu item, inherits the constraint. *)
Lemma cart_unique_from (tbl tbl' : gmap Z Cart.t) :
  (∀ k r, tbl' !! k = Some r →
          ∃ r0, tbl !! k = Some r0
                ∧ Cart.menuitem r0 = Cart.menuitem r
                ∧ Cart.user r0 = Cart.user r) →
  cart_unique tbl → cart_unique tbl'.
Proof.
  intros Hfrom Hu k1 k2 r1 r2 H1 H2 Hm Hus.
  apply Hfrom in H1 as (a1 & A1 & M1 & U1).
  apply Hfrom in H2 as (a2 & A2 & M2 & U2).
  apply (Hu k1 k2 a1 a2 A1 A2); congruence.
Qed.

Lemma cart_unique_filter (P : Z * Cart.t → Prop) `{!∀ x, Decision (P x)}
    (tbl : gmap Z Cart.t) :
  cart_unique tbl → cart_unique (filter P tbl).
Proof.
  apply cart_unique_from. intros k r Hk.
  apply map_lookup_filter_Some_1_1 in Hk. eauto.
Qed.

Lemma cart_unique_alter_deleted_at (v : option Z) (k : Z)
    (tbl : gmap Z Cart.t) :
  cart_unique tbl → cart_unique (alter (set_deleted_at v) k tbl).
Proof.
  apply cart_unique_from. intros j r Hj.
  apply lookup_alter_Some in Hj as [(-> & x & Hx & ->)|[_ Hj]]; eauto.
Qed.

Lemma unique_together_ok_Cart (self : Cart.t) (tbl : gmap Z Cart.t) k r :
  unique_together_ok Cart.id (λ r, (Cart.menuitem r, Cart.user r)) self tbl
  = true →
  tbl !! k = Some r →
  Cart.menuitem r = Cart.menuitem self → Cart.user r = Cart.user self →
  k = Cart.id self.
Proof.
  unfold unique_together_ok. rewrite bool_decide_eq_true.
  intros Hall Hk Hm Hu. destruct (Hall k r Hk) as [->|Hne]; [done|].
  exfalso. apply Hne. cbn. congruence.
Qed.

Lemma cart_unique_insert (self : Cart.t) (tbl : gmap Z Cart.t) :
  unique_together_ok Cart.id (λ r, (Cart.menuitem r, Cart.user r)) self tbl
  = true →
  cart_unique tbl → cart_unique (<[Cart.id self := self]> tbl).
Proof.
  intros Hok Hu k1 k2 r1 r2 H1 H2 Hm Hus.
  apply lookup_insert_Some in H1 as [[<- <-]|[N1 H1]];
    apply lookup_insert_Some in H2 as [[<- <-]|[N2 H2]].
  - done.
  - symmetry. by apply (unique_together_ok_Cart self tbl k2 r2).
  - by apply (unique_together_ok_Cart self tbl k1 r1).
  - by apply (Hu k1 k2 r1 r2).
Qed.

Lemma Cart_constraints_None (self : Cart.t) (d : DB) :
  constraints d self = None →
  unique_together_ok Cart.id (λ r, (Cart.menuitem r, Cart.user r)) self
    (user_carts d) = true.
Proof.
  cbn. destruct (exists_in (Cart.user self) (auth_user d)); [|discriminate].
  destruct (exists_in (Cart.menuitem self) (menu_items d)); [|discriminate].
  cbn. destruct (unique_together_ok _ _ _ _); [done|discriminate].
Qed.

(** [save] of a row of another table leaves the cart table alone. *)
Lemma save_other_table {A} `{Model A} (self : A) (w : World) :
  (∀ t d, user_carts (set_table t d) = user_carts d) →
  user_carts (db (save self w).2) = user_carts (db w).
Proof.
  intros Hframe. unfold save, bind, get_db. cbv beta iota.
  destruct (constraints (db w) self); [reflexivity|]. cbn. apply Hframe.
Qed.

Lemma save_Cart_unique (self : Cart.t) (w : World) :
  cart_unique (user_carts (db w)) →
  cart_unique (user_carts (db (save self w).2)).
Proof.
  intros Hu. unfold save, bind, get_db. cbv beta iota.
  destruct (constraints (db w) self) eqn:E; [exact Hu|].
  cbn. by apply cart_unique_insert; [apply Cart_constraints_None|].
Qed.

Lemma soft_delete_other_table {A} `{SoftDelete A} `{EqDecision A}
    (self : A) (w : World) :
  (∀ t d, user_carts (set_table t d) = user_carts d) →
  user_carts (db (discard (SoftDeleteObject_delete self) w).2)
  = user_carts (db w).
Proof.
  intros Hframe. rewrite discard_world.
  destruct (soft_delete_db self w) as [->|[[_ ->]|[_ ->]]];
    [reflexivity | apply Hframe | apply Hframe].
Qed.

Lemma soft_delete_Cart_unique (self : Cart.t) (w : World) :
  cart_unique (user_carts (db w)) →
  cart_unique (user_carts (db (SoftDeleteObject_delete self w).2)).
Proof.
  intros Hu.
  destruct (soft_delete_db self w) as [->|[[Hrow ->]|[Hc ->]]]; [exact Hu| |].
  - revert Hu. apply cart_unique_from. intros k r Hk. cbn in Hk.
    apply lookup_insert_Some in Hk as [[<- <-]|[_ Hk]]; [|by eauto].
    eexists. split; [exact Hrow|]. by split.
  - apply Cart_constraints_None in Hc. by apply cart_unique_insert in Hc.
Qed.

Lemma Category_delete_carts (self : Category.t) (w : World) :
  user_carts (db (Category_delete self w).2) = user_carts (db w).
Proof.
  unfold Category_delete, bind, get_db. cbv beta iota zeta.
  destruct (collect MenuItem_category _ _), (collect OrderItem_category _ _);
    reflexivity.
Qed.

Lemma User_delete_carts (u : User.t) (w : World) :
  user_carts (db (User_delete u w).2)
  = filter (λ kr, refers Cart_user {[ User.id u ]} kr.2 = false)
      (user_carts (db w)).
Proof. reflexivity. Qed.

(** When the user of the cart row cannot be fetched, [reset_cart] logs the
    failure and touches no table. *)
Lemma reset_cart_with_no_user delete self w :
  auth_user (db w) !! Cart.user self = None →
  reset_cart_with delete self w
  = (Return tt, logged (reset_cart_error (ObjectDoesNotExist "auth_user")) w).
Proof.
  intros Hu. unfold reset_cart_with, try_except_Exception.
  rewrite (bind_Return _ _ _ _ _ (Cart_getattr_user self w)).
  rewrite (bind_Raise _ _ w (ObjectDoesNotExist "auth_user") w); [reflexivity|].
  unfold getattr_of.
  by rewrite (bind_Raise _ _ w (ObjectDoesNotExist "auth_user") w)
    by exact (fetch_None (A := User.t) (Cart.user self) w Hu).
Qed.

Lemma reset_cart_unique (self : Cart.t) (w : World) :
  cart_unique (user_carts (db w)) →
  cart_unique (user_carts (db (reset_cart self w).2)).
Proof.
  intros Hu. unfold reset_cart.
  destruct (auth_user (db w) !! Cart.user self) as [u|] eqn:E.
  - rewrite (reset_cart_with_reaches_delete _ _ _ u E).
    pose proof (soft_delete_Cart_unique self
                  (logged (reset_cart_warning self u) w) Hu) as Hd.
    destruct (SoftDeleteObject_delete self _) as [[c|e] w2]; [exact Hd|].
    destruct (isinstance_Exception e); exact Hd.
  - rewrite (reset_cart_with_no_user _ _ _ E). exact Hu.
Qed.

(** Every request preserves the constraint. *)
Lemma handle_cart_unique (r : Request) (w : World) :
  cart_unique (user_carts (db w)) →
  cart_unique (user_carts (db (handle r w).2)).
Proof.
  intros Hu. destruct r; cbn [handle].
  - by rewrite save_other_table.
  - by rewrite save_other_table.
  - by rewrite save_other_table.
  - by rewrite save_other_table.
  - by rewrite save_other_table.
  - by apply save_Cart_unique.
  - rewrite User_delete_carts. by apply cart_unique_filter.
  - by rewrite Category_delete_carts.
  - by rewrite soft_delete_other_table.
  - by rewrite soft_delete_other_table.
  - by rewrite soft_delete_other_table.
  - unfold discard, bind.
    pose proof (soft_delete_Cart_unique c w Hu) as Hd.
    by destruct (SoftDeleteObject_delete c w) as [[c'|e] w2].
  - by apply reset_cart_unique.
  - exact Hu.
  - exact Hu.
Qed.

Lemma run_cart_unique (rs : list Request) (w : World) :
  cart_unique (user_carts (db w)) →
  cart_unique (user_carts (db (run rs w))).
Proof.
  revert w. induction rs as [|r rs IH]; intros w Hu; [exact Hu|].
  cbn. apply IH. by apply handle_cart_unique.
Qed.

Lemma active_cart_rows_elem (u m : Z) (d : DB) (k : Z) (r : Cart.t) :
  (k, r) ∈ active_cart_rows u m d →
  user_carts d !! k = Some r ∧ Cart.user r = u ∧ Cart.menuitem r = m
  ∧ Cart.deleted_at r = None.
Proof.
  unfold active_cart_rows, objects_all. rewrite elem_of_map_to_list.
  intros H. apply map_lookup_filter_Some in H as [H [Hu Hm]].
  apply map_lookup_filter_Some in H as [H Hd]. auto.
Qed.

(** Under the constraint, a user has at most one active row per item. *)
Lemma cart_unique_at_most_one (u m : Z) (d : DB) :
  cart_unique (user_carts d) →
  (length (active_cart_rows u m d) ≤ 1)%nat.
Proof.
  intros Hu.
  assert (NoDup (active_cart_rows u m d)) as Hnd
    by apply NoDup_map_to_list.
  destruct (active_cart_rows u m d) as [|[k1 r1] [|[k2 r2] l]] eqn:E;
    [cbn; lia | cbn; lia | exfalso].
  assert ((k1, r1) ∈ active_cart_rows u m d) as H1
    by (rewrite E; apply elem_of_cons; by left).
  assert ((k2, r2) ∈ active_cart_rows u m d) as H2
    by (rewrite E; apply elem_of_cons; right; apply elem_of_cons; by left).
  apply active_cart_rows_elem in H1 as (L1 & U1 & M1 & _).
  apply active_cart_rows_elem in H2 as (L2 & U2 & M2 & _).
  assert (k1 = k2) as -> by (apply (Hu k1 k2 r1 r2); congruence).
  assert (r1 = r2) as -> by congruence.
  apply NoDup_cons in Hnd as [Hnot _]. apply Hnot.
  apply elem_of_cons. by left.
Qed.

(** C8: in every state that requests can reach from the empty database,
    each user has at most one active cart row per menu item. *)
Theorem at_most_one_active_cart_row (rs : list Request) (u m : Z) :
  (length (active_cart_rows u m (db (run rs empty_world))) ≤ 1)%nat.
Proof.
  apply cart_unique_at_most_one, run_cart_unique, cart_unique_empty.
Qed.

(** The constraint at work: a second row for the same user and item is
    refused, also while the first one is flagged as deleted. *)
Lemma second_cart_row_refused :
  save {| Cart.id := 2; Cart.deleted_at := None; Cart.user := 1;
          Cart.menuitem := 1; Cart.quantity := 1; Cart.unit_price := 500;
          Cart.price := 500 |}
    (run [DeleteCart alice_pasta] world_one_cart)
  = (Raise (IntegrityError "user_carts.unique_together(menuitem, user)"),
     run [DeleteCart alice_pasta] world_one_cart).
Proof. vm_compute. reflexivity. Qed.

(** * Further properties *)

(** ** [Order.__str__] and [Cart.__str__] *)

Lemma Order_getattr_pk (self : Order.t) w :
  getattr self "pk" w = (Return (PyInt (Order.id self)), w).
Proof. reflexivity. Qed.

Lemma Order_getattr_user (self : Order.t) w :
  getattr self "user" w = (Return (PyRelated UserModel (Order.user self)), w).
Proof. reflexivity. Qed.

Lemma getattr_of_user_missing (k : Z) (name : string) w :
  auth_user (db w) !! k = None →
  getattr_of (PyRelated UserModel k) name w
  = (Raise (ObjectDoesNotExist "auth_user"), w).
Proof.
  intros Hu. unfold getattr_of.
  by rewrite (bind_Raise _ _ w (ObjectDoesNotExist "auth_user") w)
    by exact (fetch_None (A := User.t) k w Hu).
Qed.

(** X1: [Order.__str__] fetches the owner of the order.  When the owner is
    stored it returns the order number followed by the owner's last name
    twice (the first name is not used) and changes nothing; when the owner
    is not stored it raises [ObjectDoesNotExist]. *)
Theorem Order_str_outcome (self : Order.t) (w : World) :
  __str__ self w
  = match auth_user (db w) !! Order.user self with
    | Some u =>
        (Return ("Order Number: " +:+ pretty (Order.id self) +:+ " - "
                 +:+ User.last_name u +:+ ", " +:+ User.last_name u), w)
    | None => (Raise (ObjectDoesNotExist "auth_user"), w)
    end.
Proof.
  unfold __str__, Order_str.
  rewrite (bind_Return _ _ _ _ _ (Order_getattr_pk self w)).
  rewrite (bind_Return _ _ _ _ _ (Order_getattr_user self w)).
  destruct (auth_user (db w) !! Order.user self) as [u|] eqn:E.
  - by rewrite (bind_Return _ _ _ _ _ (getattr_of_user_last_name _ _ w E)).
  - by rewrite (bind_Raise _ _ _ _ _ (getattr_of_user_missing _ _ w E)).
Qed.

(** X2: [Cart.__str__] fetches the user of the cart row.  When the user is
    stored it returns the text built from the user's last name twice, with
    the quotation mark that the format string opens and never closes; when
    the user is not stored it raises [ObjectDoesNotExist]. *)
Theorem Cart_str_outcome (self : Cart.t) (w : World) :
  __str__ self w
  = match auth_user (db w) !! Cart.user self with
    | Some u =>
        (Return ("Cart for '" +:+ User.last_name u +:+ ", "
                 +:+ User.last_name u), w)
    | None => (Raise (ObjectDoesNotExist "auth_user"), w)
    end.
Proof.
  unfold __str__, Cart_str.
  rewrite (bind_Return _ _ _ _ _ (Cart_getattr_user self w)).
  destruct (auth_user (db w) !! Cart.user self) as [u|] eqn:E.
  - by rewrite (bind_Return _ _ _ _ _ (getattr_of_user_last_name _ _ w E)).
  - by rewrite (bind_Raise _ _ _ _ _ (getattr_of_user_missing _ _ w E)).
Qed.

(** ** [reset_cart]: the paths around [delete] *)

(** X3: whatever [delete] does, [reset_cart] never lets an instance of
    [Exception] out: an exception that leaves [reset_cart] is outside
    [Exception]. *)
Theorem reset_cart_raises_no_Exception
    (delete : Cart.t → M Cart.t) (self : Cart.t) (w w' : World)
    (e : PyException) :
  reset_cart_with delete self w = (Raise e, w') →
  isinstance_Exception e = false.
Proof.
  destruct (auth_user (db w) !! Cart.user self) as [u|] eqn:E.
  - rewrite (reset_cart_with_reaches_delete _ _ _ u E).
    destruct (delete self _) as [[c|e'] w2]; [discriminate|].
    destruct (isinstance_Exception e') eqn:I; [discriminate|].
    by intros [= <- _].
  - by rewrite (reset_cart_with_no_user _ _ _ E).
Qed.

Lemma reset_cart_raises_no_Exception_witness :
  isinstance_Exception KeyboardInterrupt = false.
Proof.
  apply (reset_cart_raises_no_Exception (λ _, raise KeyboardInterrupt)
           alice_pasta world_one_cart
           (logged (reset_cart_warning alice_pasta alice) world_one_cart)).
  vm_compute. reflexivity.
Defined.

(** X4: when the user of the cart row cannot be fetched, building the
    warning fails inside the [try] block: [delete] is never called, no
    table changes, the failure is logged as the one new record, and the
    call returns normally. *)
Theorem reset_cart_without_user
    (delete : Cart.t → M Cart.t) (self : Cart.t) (w : World) :
  auth_user (db w) !! Cart.user self = None →
  ∃ w', reset_cart_with delete self w = (Return tt, w')
        ∧ db w' = db w
        ∧ log w'
          = (log w ++ [reset_cart_error (ObjectDoesNotExist "auth_user")])%list.
Proof.
  intros E. rewrite (reset_cart_with_no_user _ _ _ E). eauto.
Qed.

Lemma reset_cart_without_user_witness :
  ∃ w', reset_cart_with (λ _, raise SystemExit) orphan_cart world_no_cart
        = (Return tt, w')
        ∧ db w' = db world_no_cart
        ∧ log w'
          = (log world_no_cart
             ++ [reset_cart_error (ObjectDoesNotExist "auth_user")])%list.
Proof.
  apply (reset_cart_without_user (λ _, raise SystemExit) orphan_cart
           world_no_cart).
  vm_compute. reflexivity.
Defined.

(** X5: when the user is stored and [delete] returns, [reset_cart] returns
    in the state [delete] left: the warning was logged before the call and
    no error record follows. *)
Theorem reset_cart_after_delete_returns
    (delete : Cart.t → M Cart.t) (self c : Cart.t) (w w2 : World)
    (u : User.t) :
  auth_user (db w) !! Cart.user self = Some u →
  delete self (logged (reset_cart_warning self u) w) = (Return c, w2) →
  reset_cart_with delete self w = (Return tt, w2).
Proof.
  intros Hu Hd. rewrite (reset_cart_with_reaches_delete _ _ _ u Hu).
  by rewrite Hd.
Qed.

Lemma reset_cart_after_delete_returns_witness :
  reset_cart_with SoftDeleteObject_delete alice_pasta world_one_cart
  = (Return tt,
     flagged_world alice_pasta
       (logged (reset_cart_warning alice_pasta alice) world_one_cart)).
Proof.
  apply (reset_cart_after_delete_returns SoftDeleteObject_delete alice_pasta
           (set_deleted_at (Some 0) alice_pasta) world_one_cart _ alice).
  - vm_compute. reflexivity.
  - reflexivity.
Defined.

(** ** [unique_together] on write *)

(** X7: a cart row for a user and a menu item that another row of the
    table already holds is refused by [save] with [IntegrityError], and
    nothing is written.  The other row counts whether or not it is flagged
    as deleted, so an item that was removed from the cart by a soft delete
    cannot be added again as a new row. *)
Theorem save_Cart_duplicate_refused
    (self r : Cart.t) (k : Z) (w : World) :
  user_carts (db w) !! k = Some r →
  k ≠ Cart.id self →
  Cart.menuitem r = Cart.menuitem self →
  Cart.user r = Cart.user self →
  ∃ c, save self w = (Raise (IntegrityError c), w).
Proof.
  intros Hk Hne Hm Hu. unfold save, bind, get_db. cbv beta iota.
  destruct (constraints (db w) self) as [c|] eqn:E; [by exists c|].
  exfalso. apply Cart_constraints_None in E.
  apply Hne. by apply (unique_together_ok_Cart self (user_carts (db w)) k r).
Qed.

Lemma save_Cart_duplicate_refused_witness :
  ∃ c, save alice_pasta_again (run [DeleteCart alice_pasta] world_one_cart)
       = (Raise (IntegrityError c),
          run [DeleteCart alice_pasta] world_one_cart).
Proof.
  apply (save_Cart_duplicate_refused alice_pasta_again
           (set_deleted_at (Some 0) alice_pasta) 1
           (run [DeleteCart alice_pasta] world_one_cart)).
  - vm_compute. reflexivity.
  - vm_compute. discriminate.
  - reflexivity.
  - reflexivity.
Defined.

(** ** The database after each request *)

Lemma save_db {A} `{Model A} (self : A) (w : World) :
  db (save self w).2 = db w
  ∨ (constraints (db w) self = None
     ∧ db (save self w).2
       = set_table (<[pk self := self]> (table (db w))) (db w)).
Proof.
  unfold save, bind, get_db. cbv beta iota.
  destruct (constraints (db w) self); [by left|]. right. by split.
Qed.

Lemma reset_cart_db (self : Cart.t) (w : World) :
  db (reset_cart self w).2 = db w
  ∨ (user_carts (db w) !! Cart.id self = Some (set_deleted_at None self)
     ∧ db (reset_cart self w).2 = db (deleted_world self w))
  ∨ (constraints (db w) (set_deleted_at (Some (clock w)) self) = None
     ∧ db (reset_cart self w).2 = db (deleted_world self w)).
Proof.
  unfold reset_cart.
  destruct (auth_user (db w) !! Cart.user self) as [u|] eqn:E.
  - rewrite (reset_cart_with_reaches_delete _ _ _ u E).
    destruct (soft_delete_cases self (logged (reset_cart_warning self u) w))
      as [(row & t & _ & _ & E')|[(Hrow & _ & E')|[(Hc & E')|(c & _ & E')]]];
      rewrite E'.
    + by left.
    + right. left. by split.
    + right. right. by split.
    + by left.
  - rewrite (reset_cart_with_no_user _ _ _ E). by left.
Qed.

(** A [PROTECT] column lets the delete through only when no row refers. *)
Lemma collect_PROTECT_Kept_inv {A} (rel : Relation A) targets tbl tbl' gone :
  fk_on_delete (rel_fk rel) = PROTECT →
  collect rel targets tbl = Kept tbl' gone →
  tbl' = tbl ∧ ∀ k r, tbl !! k = Some r → refers rel targets r = false.
Proof.
  intros Hp. unfold collect. rewrite Hp.
  destruct (decide (filter (λ kr, refers rel targets kr.2 = true) tbl = ∅))
    as [He|Hne]; [|discriminate].
  intros [= <- _]. split; [done|]. intros k r Hk.
  destruct (refers rel targets r) eqn:Hr; [|done].
  by destruct (map_filter_empty_not_lookup _ tbl k r He Hr).
Qed.

Lemma Category_delete_db (self : Category.t) (w : World) :
  (∃ objs, Category_delete self w = (Raise (ProtectedError "Category" objs), w))
  ∨ (unreferenced self (db w)
     ∧ Category_delete self w
       = (Return tt,
          {| db := {| auth_user := auth_user (db w);
                      category := delete (Category.id self) (category (db w));
                      menu_items := menu_items (db w);
                      orders := orders (db w);
                      order_items := order_items (db w);
                      user_carts := user_carts (db w) |};
             log := log w; clock := clock w |})).
Proof.
  unfold Category_delete, bind, get_db. cbv beta iota zeta.
  destruct (collect MenuItem_category _ _) as [rows1|mi g1] eqn:E1.
  { left. destruct (collect OrderItem_category _ _); eexists; reflexivity. }
  destruct (collect OrderItem_category _ _) as [rows2|oi g2] eqn:E2.
  { left. eexists. reflexivity. }
  apply collect_PROTECT_Kept_inv in E1 as [-> H1]; [|done].
  apply collect_PROTECT_Kept_inv in E2 as [-> H2]; [|done].
  right. split; [|reflexivity]. split.
  - intros k r Hk Hc. specialize (H1 k r Hk).
    apply refers_singleton_false in H1. apply H1. cbn. by rewrite Hc.
  - intros k r Hk Hc. specialize (H2 k r Hk).
    apply refers_singleton_false in H2. apply H2. cbn. by rewrite Hc.
Qed.

Lemma User_delete_db (u : User.t) (w : World) :
  db (User_delete u w).2
  = {| auth_user := delete (User.id u) (auth_user (db w));
       category := category (db w);
       menu_items := menu_items (db w);
       orders :=
         (λ r, if refers Order_delivery_crew {[ User.id u ]} r
               then rel_clear Order_delivery_crew r else r)
         <$> filter (λ kr, refers Order_user {[ User.id u ]} kr.2 = false)
               (orders (db w));
       order_items :=
         filter
           (λ kr, refers OrderItem_order
                    (dom (filter
                            (λ kr, refers Order_user {[ User.id u ]} kr.2
                                   = true)
                            (orders (db w))))
                    kr.2 = false)
           (order_items (db w));
       user_carts :=
         filter (λ kr, refers Cart_user {[ User.id u ]} kr.2 = false)
           (user_carts (db w)) |}.
Proof. reflexivity. Qed.

(** ** [Category.delete]: when it goes through *)

(** X11: [Category.delete] returns normally exactly when no [MenuItem] row
    and no [OrderItem] row references the category; it then removes that
    one row of the category table and leaves every other table, the log
    and the clock as they were. *)
Theorem Category_delete_iff_unreferenced (self : Category.t) (w : World) :
  ((∃ w', Category_delete self w = (Return tt, w'))
   ↔ unreferenced self (db w))
  ∧ (unreferenced self (db w) →
     Category_delete self w
     = (Return tt,
        {| db := {| auth_user := auth_user (db w);
                    category := delete (Category.id self) (category (db w));
                    menu_items := menu_items (db w);
                    orders := orders (db w);
                    order_items := order_items (db w);
                    user_carts := user_carts (db w) |};
           log := log w; clock := clock w |})).
Proof.
  assert (unreferenced self (db w) →
          ∃ w', Category_delete self w = (Return tt, w')
                ∧ category (db w')
                  = delete (Category.id self) (category (db w))) as Hok
    by (intros [Hm Ho]; by apply Category_delete_unreferenced).
  destruct (Category_delete_db self w) as [[objs E]|[Hun E]].
  - split.
    + split; [intros [w' E']; rewrite E in E'; discriminate|].
      intros Hun. destruct (Hok Hun) as (w' & E' & _).
      rewrite E in E'. discriminate.
    + intros Hun. destruct (Hok Hun) as (w' & E' & _).
      rewrite E in E'. discriminate.
  - split; [|intros _; exact E]. split; [intros _; exact Hun|eauto].
Qed.

(** ** [User.delete]: what the cascade takes and what it leaves *)

(** X9: deleting a user is never blocked; it removes the user row and
    exactly the cart rows of that user, flagged as deleted or not; every
    other cart row, every category and every menu item stays as it was. *)
Theorem User_delete_cascades_to_carts (u : User.t) (w : World) (k : Z) :
  user_carts (db (User_delete u w).2) !! k
  = match user_carts (db w) !! k with
    | Some r => if decide (Cart.user r = User.id u) then None else Some r
    | None => None
    end
  ∧ auth_user (db (User_delete u w).2) = delete (User.id u) (auth_user (db w))
  ∧ category (db (User_delete u w).2) = category (db w)
  ∧ menu_items (db (User_delete u w).2) = menu_items (db w)
  ∧ User_delete u w = (Return tt, (User_delete u w).2).
Proof.
  split; [|by rewrite User_delete_db]. rewrite User_delete_carts.
  destruct (user_carts (db w) !! k) as [r|] eqn:E.
  - destruct (decide (Cart.user r = User.id u)) as [Hu|Hu].
    + apply map_lookup_filter_None_2. right. intros x Hx Hf.
      rewrite E in Hx. injection Hx as <-. cbn [snd] in Hf.
      apply refers_singleton_false in Hf. apply Hf. cbn. by rewrite Hu.
    + apply map_lookup_filter_Some_2; [exact E|]. cbn [snd].
      apply refers_singleton_false. cbn. congruence.
  - apply map_lookup_filter_None_2. by left.
Qed.

Lemma gone_orders_elem (u : User.t) (d : gmap Z Order.t) (t : Z) :
  t ∈ dom (filter (λ kr, refers Order_user {[ User.id u ]} kr.2 = true) d)
  ↔ ∃ o, d !! t = Some o ∧ Order.user o = User.id u.
Proof.
  rewrite elem_of_dom. unfold is_Some.
  setoid_rewrite map_lookup_filter_Some. cbn [snd].
  setoid_rewrite refers_singleton. cbn. split.
  - intros (o & Ho & Hu). exists o. split; [done|congruence].
  - intros (o & Ho & Hu). exists o. split; [done|congruence].
Qed.

(** X10: deleting a user removes, through the orders of that user, exactly
    the order items of those orders: an order item is stored afterwards if
    and only if it was stored before and its order was not owned by the
    deleted user, and it is then unchanged. *)
Theorem User_delete_cascades_to_order_items
    (u : User.t) (w : World) (k : Z) (i : OrderItem.t) :
  order_items (db (User_delete u w).2) !! k = Some i
  ↔ order_items (db w) !! k = Some i
    ∧ ¬ ∃ o, orders (db w) !! OrderItem.order i = Some o
             ∧ Order.user o = User.id u.
Proof.
  rewrite User_delete_db. cbn [order_items].
  rewrite map_lookup_filter_Some. cbn [snd].
  rewrite <- gone_orders_elem. unfold refers. cbn [rel_get OrderItem_order].
  rewrite bool_decide_eq_false. done.
Qed.

(** ** [OrderItem.Meta.unique_together] as an invariant *)

Lemma unique_by_from {A K} (key : A → K) (tbl tbl' : gmap Z A) :
  (∀ k r, tbl' !! k = Some r → ∃ r0, tbl !! k = Some r0 ∧ key r0 = key r) →
  unique_by key tbl → unique_by key tbl'.
Proof.
  intros Hfrom Hu k1 k2 r1 r2 H1 H2 Hk.
  apply Hfrom in H1 as (a1 & A1 & K1). apply Hfrom in H2 as (a2 & A2 & K2).
  apply (Hu k1 k2 a1 a2 A1 A2). congruence.
Qed.

Lemma unique_by_filter {A K} (key : A → K) (P : Z * A → Prop)
    `{!∀ x, Decision (P x)} (tbl : gmap Z A) :
  unique_by key tbl → unique_by key (filter P tbl).
Proof.
  apply unique_by_from. intros k r Hk.
  apply map_lookup_filter_Some_1_1 in Hk. eauto.
Qed.

Lemma unique_by_alter {A K} (key : A → K) (f : A → A) (k : Z)
    (tbl : gmap Z A) :
  (∀ r, key (f r) = key r) →
  unique_by key tbl → unique_by key (alter f k tbl).
Proof.
  intros Hf. apply unique_by_from. intros j r Hj.
  apply lookup_alter_Some in Hj as [(-> & x & Hx & ->)|[_ Hj]]; eauto.
Qed.

Lemma unique_by_insert {A K} `{EqDecision K} (id_of : A → Z) (key : A → K)
    (self : A) (tbl : gmap Z A) :
  unique_together_ok id_of key self tbl = true →
  unique_by key tbl → unique_by key (<[id_of self := self]> tbl).
Proof.
  unfold unique_together_ok. rewrite bool_decide_eq_true.
  intros Hall Hu k1 k2 r1 r2 H1 H2 Hk.
  apply lookup_insert_Some in H1 as [[<- <-]|[N1 H1]];
    apply lookup_insert_Some in H2 as [[<- <-]|[N2 H2]].
  - done.
  - destruct (Hall k2 r2 H2) as [->|Hne]; [done|]. by destruct Hne.
  - destruct (Hall k1 r1 H1) as [->|Hne]; [done|]. by destruct Hne.
  - by apply (Hu k1 k2 r1 r2).
Qed.

Lemma OrderItem_constraints_None (self : OrderItem.t) (d : DB) :
  constraints d self = None →
  is_Some (orders d !! OrderItem.order self)
  ∧ is_Some (menu_items d !! OrderItem.menuitem self)
  ∧ is_Some (category d !! OrderItem.category self)
  ∧ unique_together_ok OrderItem.id
      (λ r, (OrderItem.menuitem r, OrderItem.order r)) self (order_items d)
    = true.
Proof.
  cbn. unfold exists_in.
  repeat (case_bool_decide; [|discriminate]). cbn.
  destruct (unique_together_ok _ _ _ _); [done|discriminate].
Qed.

Lemma handle_order_items_unique (r : Request) (w : World) :
  unique_by OrderItem_unique_key (order_items (db w)) →
  unique_by OrderItem_unique_key (order_items (db (handle r w).2)).
Proof.
  intros Hu. destruct r as [u|c|m|o|i|c|u|c|m|o|i|c|c|c|]; cbn [handle].
  - destruct (save_db u w) as [->|[_ ->]]; exact Hu.
  - destruct (save_db c w) as [->|[_ ->]]; exact Hu.
  - destruct (save_db m w) as [->|[_ ->]]; exact Hu.
  - destruct (save_db o w) as [->|[_ ->]]; exact Hu.
  - destruct (save_db i w) as [->|[Hc ->]]; [exact Hu|].
    apply OrderItem_constraints_None in Hc as (_ & _ & _ & Hc).
    cbn. by apply (unique_by_insert OrderItem.id).
  - destruct (save_db c w) as [->|[_ ->]]; exact Hu.
  - rewrite User_delete_db. cbn. by apply unique_by_filter.
  - destruct (Category_delete_db c w) as [[objs ->]|[_ ->]]; exact Hu.
  - rewrite discard_world.
    destruct (soft_delete_db m w) as [->|[[_ ->]|[_ ->]]]; exact Hu.
  - rewrite discard_world.
    destruct (soft_delete_db o w) as [->|[[_ ->]|[_ ->]]]; exact Hu.
  - rewrite discard_world.
    destruct (soft_delete_db i w) as [->|[[Hrow ->]|[Hc ->]]]; [exact Hu| |].
    + revert Hu. apply unique_by_from. intros k r Hk. cbn in Hk.
      apply lookup_insert_Some in Hk as [[<- <-]|[_ Hk]]; [|by eauto].
      eexists. split; [exact Hrow|]. reflexivity.
    + apply OrderItem_constraints_None in Hc as (_ & _ & _ & Hc).
      cbn. by apply (unique_by_insert OrderItem.id) in Hc.
  - rewrite discard_world.
    destruct (soft_delete_db c w) as [->|[[_ ->]|[_ ->]]]; exact Hu.
  - destruct (reset_cart_db c w) as [->|[[_ ->]|[_ ->]]]; exact Hu.
  - exact Hu.
  - exact Hu.
Qed.

Lemma run_invariant (P : DB → Prop) (rs : list Request) (w : World) :
  (∀ r w, P (db w) → P (db (handle r w).2)) →
  P (db w) → P (db (run rs w)).
Proof.
  intros Hstep. revert w. induction rs as [|r rs IH]; intros w Hw; [exact Hw|].
  cbn. apply IH. by apply Hstep.
Qed.

(** X6: in every state that requests can reach from the empty database,
    an order has at most one order item row per menu item, counting the
    rows flagged as deleted. *)
Theorem at_most_one_order_item_row (rs : list Request) (o m : Z) :
  (length (order_item_rows o m (db (run rs empty_world))) ≤ 1)%nat.
Proof.
  assert (unique_by OrderItem_unique_key
            (order_items (db (run rs empty_world)))) as Hu.
  { apply (run_invariant
             (λ d, unique_by OrderItem_unique_key (order_items d))).
    - exact handle_order_items_unique.
    - intros k1 k2 r1 r2 H. cbn in H. by rewrite lookup_empty in H. }
  assert (NoDup (order_item_rows o m (db (run rs empty_world)))) as Hnd
    by apply NoDup_map_to_list.
  assert (∀ k r, (k, r) ∈ order_item_rows o m (db (run rs empty_world)) →
                 order_items (db (run rs empty_world)) !! k = Some r
                 ∧ OrderItem_unique_key r = (m, o)) as Hel.
  { intros k r. unfold order_item_rows. rewrite elem_of_map_to_list.
    intros H. apply map_lookup_filter_Some in H as [H [Ho Hm]].
    split; [exact H|]. unfold OrderItem_unique_key. cbn in Ho, Hm.
    by rewrite Ho, Hm. }
  destruct (order_item_rows o m (db (run rs empty_world)))
    as [|[k1 r1] [|[k2 r2] l]]; [cbn; lia | cbn; lia | exfalso].
  destruct (Hel k1 r1) as [L1 K1]; [apply elem_of_cons; by left|].
  destruct (Hel k2 r2) as [L2 K2];
    [apply elem_of_cons; right; apply elem_of_cons; by left|].
  assert (k1 = k2) as -> by (apply (Hu k1 k2 r1 r2); congruence).
  assert (r1 = r2) as -> by congruence.
  apply NoDup_cons in Hnd as [Hnot _]. apply Hnot.
  apply elem_of_cons. by left.
Qed.

(** ** Referential integrity *)

Lemma refs_ok_tgt {A B} (rel : Relation A) (src : gmap Z A)
    (tgt tgt' : gmap Z B) :
  (∀ t, is_Some (tgt !! t) → is_Some (tgt' !! t)) →
  refs_ok rel src tgt → refs_ok rel src tgt'.
Proof. intros Hm H k r t Hk Hr. apply Hm. by apply (H k r t). Qed.

Lemma refs_ok_insert_tgt {A B} (rel : Relation A) (src : gmap Z A)
    (tgt : gmap Z B) (j : Z) (v : B) :
  refs_ok rel src tgt → refs_ok rel src (<[j := v]> tgt).
Proof.
  apply refs_ok_tgt. intros t Ht. apply lookup_insert_is_Some'. by right.
Qed.

Lemma refs_ok_alter_tgt {A B} (rel : Relation A) (src : gmap Z A)
    (tgt : gmap Z B) (f : B → B) (j : Z) :
  refs_ok rel src tgt → refs_ok rel src (alter f j tgt).
Proof. apply refs_ok_tgt. intros t Ht. by apply lookup_alter_is_Some. Qed.

Lemma refs_ok_delete_tgt {A B} (rel : Relation A) (src : gmap Z A)
    (tgt : gmap Z B) (j : Z) :
  (∀ k r, src !! k = Some r → rel_get rel r ≠ Some j) →
  refs_ok rel src tgt → refs_ok rel src (delete j tgt).
Proof.
  intros Hne H k r t Hk Hr. rewrite lookup_delete_ne.
  - by apply (H k r t).
  - intros <-. by apply (Hne k r Hk).
Qed.

Lemma refs_ok_src {A B} (rel : Relation A) (src src' : gmap Z A)
    (tgt : gmap Z B) :
  (∀ k r t, src' !! k = Some r → rel_get rel r = Some t →
            ∃ k0 r0, src !! k0 = Some r0 ∧ rel_get rel r0 = Some t) →
  refs_ok rel src tgt → refs_ok rel src' tgt.
Proof.
  intros Hfrom H k r t Hk Hr.
  destruct (Hfrom k r t Hk Hr) as (k0 & r0 & Hk0 & Hr0). by apply (H k0 r0 t).
Qed.

Lemma refs_ok_filter_src {A B} (rel : Relation A) (P : Z * A → Prop)
    `{!∀ x, Decision (P x)} (src : gmap Z A) (tgt : gmap Z B) :
  refs_ok rel src tgt → refs_ok rel (filter P src) tgt.
Proof.
  apply refs_ok_src. intros k r t Hk Hr.
  apply map_lookup_filter_Some_1_1 in Hk. eauto.
Qed.

Lemma refs_ok_alter_src {A B} (rel : Relation A) (f : A → A) (j : Z)
    (src : gmap Z A) (tgt : gmap Z B) :
  (∀ r, rel_get rel (f r) = rel_get rel r) →
  refs_ok rel src tgt → refs_ok rel (alter f j src) tgt.
Proof.
  intros Hf. apply refs_ok_src. intros k r t Hk Hr.
  apply lookup_alter_Some in Hk as [(-> & x & Hx & ->)|[_ Hk]]; [|by eauto].
  rewrite Hf in Hr. eauto.
Qed.

Lemma refs_ok_insert_src {A B} (rel : Relation A) (self : A) (j : Z)
    (src : gmap Z A) (tgt : gmap Z B) :
  (∀ t, rel_get rel self = Some t → is_Some (tgt !! t)) →
  refs_ok rel src tgt → refs_ok rel (<[j := self]> src) tgt.
Proof.
  intros Hself H k r t Hk Hr.
  apply lookup_insert_Some in Hk as [[<- <-]|[_ Hk]]; [by apply Hself|].
  by apply (H k r t).
Qed.

Lemma refers_Some {A} (rel : Relation A) (targets : gset Z) (r : A) (t : Z) :
  rel_get rel r = Some t → refers rel targets r = bool_decide (t ∈ targets).
Proof. intros E. unfold refers. by rewrite E. Qed.

Lemma exists_in_true {A} (k : Z) (tbl : gmap Z A) :
  negb (exists_in k tbl) = false → is_Some (tbl !! k).
Proof.
  unfold exists_in. case_bool_decide; [done|discriminate].
Qed.

Lemma MenuItem_constraints_None (self : MenuItem.t) (d : DB) :
  constraints d self = None →
  is_Some (category d !! MenuItem.category self).
Proof.
  cbn. destruct (negb (exists_in _ _)) eqn:E; [discriminate|].
  intros _. by apply exists_in_true.
Qed.

Lemma Order_constraints_None (self : Order.t) (d : DB) :
  constraints d self = None →
  is_Some (auth_user d !! Order.user self)
  ∧ ∀ c, Order.delivery_crew self = Some c → is_Some (auth_user d !! c).
Proof.
  cbn. destruct (negb (exists_in (Order.user self) _)) eqn:E; [discriminate|].
  intros Hc. split; [by apply exists_in_true|]. intros c Hd.
  rewrite Hd in Hc.
  destruct (negb (exists_in c _)) eqn:E'; [discriminate|].
  by apply exists_in_true.
Qed.

Lemma Cart_constraints_foreign_keys (self : Cart.t) (d : DB) :
  constraints d self = None →
  is_Some (auth_user d !! Cart.user self)
  ∧ is_Some (menu_items d !! Cart.menuitem self).
Proof.
  cbn. destruct (negb (exists_in (Cart.user self) _)) eqn:E; [discriminate|].
  destruct (negb (exists_in (Cart.menuitem self) _)) eqn:E'; [discriminate|].
  intros _. split; by apply exists_in_true.
Qed.

(** After a user is deleted, the orders that are left belong to other
    users, are delivered by other users, and the order items that are left
    still find their order. *)
Lemma User_delete_referential_integrity (u : User.t) (w : World) :
  referential_integrity (db w) →
  referential_integrity (db (User_delete u w).2).
Proof.
  intros (H1 & H2 & H3 & H4 & H5 & H6 & H7 & H8).
  rewrite User_delete_db. unfold referential_integrity. cbn.
  split; [exact H1|]. split; [|split; [|split]].
  - intros k r t Hk Hr. rewrite lookup_fmap in Hk.
    destruct (filter _ (orders (db w)) !! k) as [r0|] eqn:E; [|discriminate].
    apply map_lookup_filter_Some in E as [E Hf].
    change (refers Order_user {[ User.id u ]} r0 = false) in Hf.
    apply refers_singleton_false in Hf. injection Hk as <-.
    assert (rel_get Order_user r0 = Some t) as Hr0
      by (destruct (refers Order_delivery_crew _ r0); exact Hr).
    rewrite lookup_delete_ne by congruence. by apply (H2 k r0 t).
  - intros k r t Hk Hr. rewrite lookup_fmap in Hk.
    destruct (filter _ (orders (db w)) !! k) as [r0|] eqn:E; [|discriminate].
    apply map_lookup_filter_Some in E as [E _]. injection Hk as <-.
    destruct (refers Order_delivery_crew {[ User.id u ]} r0) eqn:Hc;
      [discriminate Hr|].
    apply refers_singleton_false in Hc.
    rewrite lookup_delete_ne by congruence. by apply (H3 k r0 t).
  - intros k r t Hk Hr.
    apply map_lookup_filter_Some in Hk as [Hk Hf].
    change (refers OrderItem_order
              (dom (filter
                      (λ kr, refers Order_user {[ User.id u ]} kr.2 = true)
                      (orders (db w)))) r = false) in Hf.
    rewrite (refers_Some _ _ _ _ Hr) in Hf. apply bool_decide_eq_false in Hf.
    destruct (H4 k r t Hk Hr) as [o Ho]. rewrite lookup_fmap.
    rewrite (map_lookup_filter_Some_2 _ (orders (db w)) t o Ho); [by eexists|].
    change (refers Order_user {[ User.id u ]} o = false).
    apply refers_singleton_false. intros Hu. apply Hf.
    apply gone_orders_elem. exists o. split; [exact Ho|].
    cbn in Hu. congruence.
  - split; [by apply refs_ok_filter_src|].
    split; [by apply refs_ok_filter_src|]. split.
    + intros k r t Hk Hr.
      apply map_lookup_filter_Some in Hk as [Hk Hf].
      change (refers Cart_user {[ User.id u ]} r = false) in Hf.
      apply refers_singleton_false in Hf.
      rewrite lookup_delete_ne by congruence. by apply (H7 k r t).
    + by apply refs_ok_filter_src.
Qed.

Lemma handle_referential_integrity (r : Request) (w : World) :
  referential_integrity (db w) →
  referential_integrity (db (handle r w).2).
Proof.
  intros H. pose proof H as (H1 & H2 & H3 & H4 & H5 & H6 & H7 & H8).
  destruct r as [u|c|m|o|i|c|u|c|m|o|i|c|c|c|]; cbn [handle].
  - destruct (save_db u w) as [->|[_ ->]]; [exact H|].
    unfold referential_integrity. cbn.
    repeat split; first [assumption | by apply refs_ok_insert_tgt].
  - destruct (save_db c w) as [->|[_ ->]]; [exact H|].
    unfold referential_integrity. cbn.
    repeat split; first [assumption | by apply refs_ok_insert_tgt].
  - destruct (save_db m w) as [->|[Hc ->]]; [exact H|].
    apply MenuItem_constraints_None in Hc.
    unfold referential_integrity. cbn.
    repeat split; first [assumption | by apply refs_ok_insert_tgt | idtac].
    apply refs_ok_insert_src; [|assumption]. by intros t [= <-].
  - destruct (save_db o w) as [->|[Hc ->]]; [exact H|].
    apply Order_constraints_None in Hc as [Hu Hd].
    unfold referential_integrity. cbn.
    repeat split; first [assumption | by apply refs_ok_insert_tgt | idtac].
    + apply refs_ok_insert_src; [|assumption]. by intros t [= <-].
    + apply refs_ok_insert_src; [|assumption]. exact Hd.
  - destruct (save_db i w) as [->|[Hc ->]]; [exact H|].
    apply OrderItem_constraints_None in Hc as (Ho & Hm & Hca & _).
    unfold referential_integrity. cbn.
    repeat split; first [assumption | idtac];
      (apply refs_ok_insert_src; [|assumption]); by intros t [= <-].
  - destruct (save_db c w) as [->|[Hc ->]]; [exact H|].
    apply Cart_constraints_foreign_keys in Hc as [Hu Hm].
    unfold referential_integrity. cbn.
    repeat split; first [assumption | idtac];
      (apply refs_ok_insert_src; [|assumption]); by intros t [= <-].
  - by apply User_delete_referential_integrity.
  - destruct (Category_delete_db c w) as [[objs ->]|[[Hm Ho] ->]]; [exact H|].
    unfold referential_integrity. cbn.
    repeat split; first [assumption | idtac].
    + apply refs_ok_delete_tgt; [|assumption].
      intros k r Hk [= Hr]. by apply (Hm k r).
    + apply refs_ok_delete_tgt; [|assumption].
      intros k r Hk [= Hr]. by apply (Ho k r).
  - rewrite discard_world.
    destruct (soft_delete_db m w) as [->|[[Hrow ->]|[Hc ->]]]; [exact H| |];
      unfold referential_integrity; cbn;
      repeat split; first [assumption | by apply refs_ok_insert_tgt | idtac];
      (apply refs_ok_insert_src; [|assumption]).
    + intros t Ht. exact (H1 _ _ t Hrow Ht).
    + apply MenuItem_constraints_None in Hc. by intros t [= <-].
  - rewrite discard_world.
    destruct (soft_delete_db o w) as [->|[[Hrow ->]|[Hc ->]]]; [exact H| |];
      unfold referential_integrity; cbn;
      repeat split; first [assumption | by apply refs_ok_insert_tgt | idtac];
      (apply refs_ok_insert_src; [|assumption]).
    + intros t Ht. exact (H2 _ _ t Hrow Ht).
    + intros t Ht. exact (H3 _ _ t Hrow Ht).
    + apply Order_constraints_None in Hc as [Hu Hd]. by intros t [= <-].
    + apply Order_constraints_None in Hc as [Hu Hd]. exact Hd.
  - rewrite discard_world.
    destruct (soft_delete_db i w) as [->|[[Hrow ->]|[Hc ->]]]; [exact H| |];
      unfold referential_integrity; cbn;
      repeat split; first [assumption | by apply refs_ok_insert_tgt | idtac];
      (apply refs_ok_insert_src; [|assumption]).
    + intros t Ht. exact (H4 _ _ t Hrow Ht).
    + intros t Ht. exact (H5 _ _ t Hrow Ht).
    + intros t Ht. exact (H6 _ _ t Hrow Ht).
    + apply OrderItem_constraints_None in Hc as (Ho & Hm & Hca & _).
      by intros t [= <-].
    + apply OrderItem_constraints_None in Hc as (Ho & Hm & Hca & _).
      by intros t [= <-].
    + apply OrderItem_constraints_None in Hc as (Ho & Hm & Hca & _).
      by intros t [= <-].
  - rewrite discard_world.
    destruct (soft_delete_db c w) as [->|[[Hrow ->]|[Hc ->]]]; [exact H| |];
      unfold referential_integrity; cbn;
      repeat split; first [assumption | by apply refs_ok_insert_tgt | idtac];
      (apply refs_ok_insert_src; [|assumption]).
    + intros t Ht. exact (H7 _ _ t Hrow Ht).
    + intros t Ht. exact (H8 _ _ t Hrow Ht).
    + apply Cart_constraints_foreign_keys in Hc as [Hu Hm]. by intros t [= <-].
    + apply Cart_constraints_foreign_keys in Hc as [Hu Hm]. by intros t [= <-].
  - destruct (reset_cart_db c w) as [->|[[Hrow ->]|[Hc ->]]]; [exact H| |];
      unfold referential_integrity; cbn;
      repeat split; first [assumption | by apply refs_ok_insert_tgt | idtac];
      (apply refs_ok_insert_src; [|assumption]).
    + intros t Ht. exact (H7 _ _ t Hrow Ht).
    + intros t Ht. exact (H8 _ _ t Hrow Ht).
    + apply Cart_constraints_foreign_keys in Hc as [Hu Hm]. by intros t [= <-].
    + apply Cart_constraints_foreign_keys in Hc as [Hu Hm]. by intros t [= <-].
  - exact H.
  - exact H.
Qed.

(** X8: in every state that requests can reach from the empty database no
    foreign key dangles: the category of every menu item, the owner and the
    delivery crew (when set) of every order, the order, menu item and
    category of every order item, and the user and menu item of every cart
    row are stored rows.  The checks of [save] and the [on_delete] policies
    keep it so. *)
Theorem reachable_referential_integrity (rs : list Request) :
  referential_integrity (db (run rs empty_world)).
Proof.
  apply (run_invariant referential_integrity).
  - exact handle_referential_integrity.
  - unfold referential_integrity. cbn.
    repeat split; intros k r t Hk; by rewrite lookup_empty in Hk.
Qed.

(** ** What a request can change in a row it does not save or delete *)

(** X12: apart from the [save] of that very order and the soft deletes,
    the only request that changes a stored order is the deletion of a
    user: it removes the order when the user owns it, nulls
    [delivery_crew] when the user is the delivery crew of an order owned by
    someone else, and leaves every other order as it was.  No other request
    touches any column; the total is never recomputed. *)
Theorem order_row_frame (r : Request) (w : World) (k : Z) (o : Order.t) :
  orders (db w) !! k = Some o →
  is_soft_delete r = false →
  (∀ s, r = SaveOrder s → Order.id s ≠ k) →
  orders (db (handle r w).2) !! k
  = match r with
    | DeleteUser u =>
        if decide (Order.user o = User.id u) then None
        else if decide (Order.delivery_crew o = Some (User.id u))
             then Some (rel_clear Order_delivery_crew o)
             else Some o
    | _ => Some o
    end.
Proof.
  intros H Hsd Hsave.
  destruct r as [u|c|m|s|i|c|u|c|m|s|i|c|c|c|]; try discriminate Hsd;
    cbn [handle].
  - by destruct (save_db u w) as [->|[_ ->]].
  - by destruct (save_db c w) as [->|[_ ->]].
  - by destruct (save_db m w) as [->|[_ ->]].
  - destruct (save_db s w) as [->|[_ ->]]; [done|].
    cbn. by rewrite lookup_insert_ne by (by apply Hsave).
  - by destruct (save_db i w) as [->|[_ ->]].
  - by destruct (save_db c w) as [->|[_ ->]].
  - rewrite User_delete_db. cbn [orders]. rewrite lookup_fmap.
    destruct (decide (Order.user o = User.id u)) as [Hu|Hu].
    + rewrite (map_lookup_filter_None_2 _ (orders (db w))); [done|].
      right. intros x Hx Hf. rewrite H in Hx. injection Hx as <-.
      change (refers Order_user {[ User.id u ]} o = false) in Hf.
      apply refers_singleton_false in Hf. apply Hf. cbn. by rewrite Hu.
    + rewrite (map_lookup_filter_Some_2 _ (orders (db w)) k o H); cycle 1.
      { change (refers Order_user {[ User.id u ]} o = false).
        apply refers_singleton_false. cbn. congruence. }
      cbn [fmap option_fmap option_map].
      destruct (decide (Order.delivery_crew o = Some (User.id u))) as [Hc|Hc].
      * assert (refers Order_delivery_crew {[ User.id u ]} o = true) as ->
          by (by apply refers_singleton).
        done.
      * assert (refers Order_delivery_crew {[ User.id u ]} o = false) as ->
          by (by apply refers_singleton_false).
        done.
  - by destruct (Category_delete_db c w) as [[objs ->]|[_ ->]].
  - exact H.
  - exact H.
Qed.

Lemma order_row_frame_witness :
  orders (db (handle (DeleteUser bob) world_orders).2) !! 2
  = Some (rel_clear Order_delivery_crew alice_order_bob_delivers).
Proof.
  apply (order_row_frame (DeleteUser bob) world_orders 2
           alice_order_bob_delivers).
  - vm_compute. reflexivity.
  - reflexivity.
  - discriminate.
Defined.

(** X13: apart from the [save] of that very cart row and the soft deletes,
    the only request that changes a stored cart row is the deletion of its
    user, which removes it.  In particular a change of the menu item's
    price leaves the row's [unit_price] and [price] as they were. *)
Theorem cart_row_frame (r : Request) (w : World) (k : Z) (c : Cart.t) :
  user_carts (db w) !! k = Some c →
  is_soft_delete r = false →
  (∀ s, r = SaveCart s → Cart.id s ≠ k) →
  user_carts (db (handle r w).2) !! k
  = match r with
    | DeleteUser u =>
        if decide (Cart.user c = User.id u) then None else Some c
    | _ => Some c
    end.
Proof.
  intros H Hsd Hsave.
  destruct r as [u|a|m|o|i|s|u|a|m|o|i|s|s|s|]; try discriminate Hsd;
    cbn [handle].
  - by destruct (save_db u w) as [->|[_ ->]].
  - by destruct (save_db a w) as [->|[_ ->]].
  - by destruct (save_db m w) as [->|[_ ->]].
  - by destruct (save_db o w) as [->|[_ ->]].
  - by destruct (save_db i w) as [->|[_ ->]].
  - destruct (save_db s w) as [->|[_ ->]]; [done|].
    cbn. by rewrite lookup_insert_ne by (by apply Hsave).
  - rewrite User_delete_carts.
    destruct (decide (Cart.user c = User.id u)) as [Hu|Hu].
    + apply map_lookup_filter_None_2. right. intros x Hx Hf.
      rewrite H in Hx. injection Hx as <-.
      change (refers Cart_user {[ User.id u ]} c = false) in Hf.
      apply refers_singleton_false in Hf. apply Hf. cbn. by rewrite Hu.
    + apply map_lookup_filter_Some_2; [exact H|].
      change (refers Cart_user {[ User.id u ]} c = false).
      apply refers_singleton_false. cbn. congruence.
  - by destruct (Category_delete_db a w) as [[objs ->]|[_ ->]].
  - exact H.
  - exact H.
Qed.

Lemma cart_row_frame_witness :
  user_carts (db (handle (SaveMenuItem pasta_dearer) world_one_cart).2) !! 1
  = Some alice_pasta.
Proof.
  apply (cart_row_frame (SaveMenuItem pasta_dearer) world_one_cart 1
           alice_pasta).
  - vm_compute. reflexivity.
  - reflexivity.
  - discriminate.
Defined.

(** X14: apart from the [save] of that very order item and the soft
    deletes, the only request that changes a stored order item is the
    deletion of the user who owns its order, which removes it.  The
    snapshot taken into an order item is not touched by later changes to
    the menu item, and its price is never recomputed. *)
Theorem order_item_row_frame
    (r : Request) (w : World) (k : Z) (i : OrderItem.t) :
  order_items (db w) !! k = Some i →
  is_soft_delete r = false →
  (∀ s, r = SaveOrderItem s → OrderItem.id s ≠ k) →
  order_items (db (handle r w).2) !! k
  = match r with
    | DeleteUser u =>
        match orders (db w) !! OrderItem.order i with
        | Some o => if decide (Order.user o = User.id u) then None else Some i
        | None => Some i
        end
    | _ => Some i
    end.
Proof.
  intros H Hsd Hsave.
  destruct r as [u|a|m|o|s|c|u|a|m|o|s|c|c|c|]; try discriminate Hsd;
    cbn [handle].
  - by destruct (save_db u w) as [->|[_ ->]].
  - by destruct (save_db a w) as [->|[_ ->]].
  - by destruct (save_db m w) as [->|[_ ->]].
  - by destruct (save_db o w) as [->|[_ ->]].
  - destruct (save_db s w) as [->|[_ ->]]; [done|].
    cbn. by rewrite lookup_insert_ne by (by apply Hsave).
  - by destruct (save_db c w) as [->|[_ ->]].
  - rewrite User_delete_db. cbn [order_items].
    assert (refers OrderItem_order
              (dom (filter
                      (λ kr, refers Order_user {[ User.id u ]} kr.2 = true)
                      (orders (db w)))) i = false
            ↔ ¬ ∃ o, orders (db w) !! OrderItem.order i = Some o
                     ∧ Order.user o = User.id u) as Hgone.
    { rewrite <- gone_orders_elem. unfold refers.
      cbn [rel_get OrderItem_order]. by rewrite bool_decide_eq_false. }
    destruct (orders (db w) !! OrderItem.order i) as [o|] eqn:Ho.
    + destruct (decide (Order.user o = User.id u)) as [Hu|Hu].
      * apply map_lookup_filter_None_2. right. intros x Hx Hf.
        rewrite H in Hx. injection Hx as <-. apply Hgone in Hf.
        apply Hf. eauto.
      * apply map_lookup_filter_Some_2; [exact H|]. apply Hgone.
        intros (o' & [= <-] & Hu'). done.
    + apply map_lookup_filter_Some_2; [exact H|]. apply Hgone.
      intros (o' & Ho' & _). discriminate Ho'.
  - by destruct (Category_delete_db a w) as [[objs ->]|[_ ->]].
  - exact H.
  - exact H.
Qed.

Lemma order_item_row_frame_witness :
  order_items (db (handle (SaveMenuItem pasta_dearer) world_orders).2) !! 1
  = Some alice_order_pasta.
Proof.
  apply (order_item_row_frame (SaveMenuItem pasta_dearer) world_orders 1
           alice_order_pasta).
  - vm_compute. reflexivity.
  - reflexivity.
  - discriminate.
Defined.

(** ** The cart constraint over all rows *)

(** X15: in every state that requests can reach from the empty database, a
    user has at most one cart row per menu item even when the rows flagged
    as deleted are counted: [unique_together] does not look at the deleted
    flag. *)
Theorem at_most_one_cart_row_with_deleted (rs : list Request) (u m : Z) :
  (length (cart_rows u m (db (run rs empty_world))) ≤ 1)%nat.
Proof.
  assert (cart_unique (user_carts (db (run rs empty_world)))) as Hu
    by apply run_cart_unique, cart_unique_empty.
  assert (NoDup (cart_rows u m (db (run rs empty_world)))) as Hnd
    by apply NoDup_map_to_list.
  assert (∀ k r, (k, r) ∈ cart_rows u m (db (run rs empty_world)) →
                 user_carts (db (run rs empty_world)) !! k = Some r
                 ∧ Cart.user r = u ∧ Cart.menuitem r = m) as Hel.
  { intros k r. unfold cart_rows. rewrite elem_of_map_to_list.
    intros H. by apply map_lookup_filter_Some in H as [H [Hus Hm]]. }
  destruct (cart_rows u m (db (run rs empty_world)))
    as [|[k1 r1] [|[k2 r2] l]]; [cbn; lia | cbn; lia | exfalso].
  destruct (Hel k1 r1) as (L1 & U1 & M1); [apply elem_of_cons; by left|].
  destruct (Hel k2 r2) as (L2 & U2 & M2);
    [apply elem_of_cons; right; apply elem_of_cons; by left|].
  assert (k1 = k2) as -> by (apply (Hu k1 k2 r1 r2); congruence).
  assert (r1 = r2) as -> by congruence.
  apply NoDup_cons in Hnd as [Hnot _]. apply Hnot.
  apply elem_of_cons. by left.
Qed.

